(** * vice: the frame loop of [main] and its shutdown negotiation

    Shallow embedding of the event/rendering loop of [main] in [main.go]
    (lines 176-261).  The loop body is written in a small state-and-trace
    monad: the state is the part of the process the loop reads or writes
    (the globals [server], [controlUpdates], [ui.activeModalDialogs],
    [globalConfig], [stats.redraws], the platform's stop flag, and the
    locals [frameIndex] and [wantExit]); the trace is the sequence of calls
    the code of [main.go] makes to its collaborators.

    The collaborators themselves (platform, renderer, imgui, the server
    implementations, the window manager, audio, the logger, the modal
    dialog list of the UI) are not part of [main.go].  What they do to the
    state the loop observes is given, frame by frame, by a [FrameEnv]. *)

From Stdlib Require Import List ZArith String Bool Lia.
Import ListNotations.

Local Open Scope Z_scope.

(** ** Data *)

(** Go's [int] on the 64-bit targets: [frameIndex++] wraps around. *)
Definition wrap64 (z : Z) : Z := (z + 2 ^ 63) mod 2 ^ 64 - 2 ^ 63.

(** Modelled from the spec: the change records a [ControlUpdates] batch
    holds ("aircraft added", "aircraft state changed", "aircraft removed",
    "flight-plan amended"); the type [ControlUpdates] is declared outside
    [main.go]. *)
Inductive Update : Type :=
| AircraftAdded (callsign : string)
| AircraftChanged (callsign : string)
| AircraftRemoved (callsign : string)
| FlightPlanAmended (callsign : string).

Definition ControlUpdates : Type := list Update.

(** The [ATCServer] interface value held in the global [server]:
    [&DisconnectedATCServer{}] or a connected implementation, which owns a
    transport handle. *)
Inductive ATCServer : Type :=
| DisconnectedATCServer
| ConnectedATCServer (handle : nat).

(** The closures [main] hands to the UI, defunctionalised, and the
    closures of other collaborators' dialogs, which do not touch any
    variable of the loop. *)
Inductive Callback : Type :=
| disconnect_ok      (* func() { server.Disconnect(); server = &DisconnectedATCServer{} } *)
| disconnect_notok   (* func() { platform.CancelShouldStop(); wantExit = false } *)
| collaborator_closure (name : string).

Record YesOrNoModalClient : Type := {
  title : string;
  query : string;
  ok : Callback;
  notok : Callback
}.

(** The fields of [GlobalConfig] the loop assigns. *)
Record GlobalConfig : Type := {
  ImGuiSettings : string;
  InitialWindowSize : Z * Z;
  InitialWindowPosition : Z * Z
}.

(** The calls the code of [main.go] makes to collaborators (the loop and
    the two closures it builds).  Server methods carry their receiver; the
    three consumers of the update batch and [uiShowModalDialog] carry
    their arguments. *)
Inductive Call : Type :=
| GetWindowTitle (receiver : ATCServer)
| SetWindowTitle (t : string)
| ProcessEvents
| SendUpdates
| GetUpdates (receiver : ATCServer)
| NoUpdates
| PositionConfigUpdate (batch : ControlUpdates)
| WmShareUpdates (batch : ControlUpdates)
| AudioProcessUpdates (batch : ControlUpdates)
| Reset
| PlatformNewFrame
| ImguiNewFrame
| WmDrawPanes
| GetColorScheme
| DrawUI
| ImguiRender
| DisplaySize
| FramebufferSize
| RenderedDrawData
| RenderImgui
| PostRender
| LogStats
| ShouldStop
| Connected (receiver : ATCServer)
| UiShowModalDialog (d : YesOrNoModalClient) (atFront : bool)
| SaveIniSettingsToMemory
| WindowSize
| WindowPosition
| PromptToSaveIfChanged
| Disconnect (receiver : ATCServer)
| CancelShouldStop.

(** The state the loop reads and writes. *)
Record World : Type := {
  server : ATCServer;
  controlUpdates : ControlUpdates;
  shouldStop : bool;
  activeModalDialogs : list YesOrNoModalClient;
  globalConfig : GlobalConfig;
  redraws : Z;
  frameIndex : Z;
  wantExit : bool
}.

Definition set_server (s : ATCServer) (w : World) : World :=
  {| server := s; controlUpdates := controlUpdates w; shouldStop := shouldStop w;
     activeModalDialogs := activeModalDialogs w; globalConfig := globalConfig w;
     redraws := redraws w; frameIndex := frameIndex w; wantExit := wantExit w |}.

Definition set_controlUpdates (u : ControlUpdates) (w : World) : World :=
  {| server := server w; controlUpdates := u; shouldStop := shouldStop w;
     activeModalDialogs := activeModalDialogs w; globalConfig := globalConfig w;
     redraws := redraws w; frameIndex := frameIndex w; wantExit := wantExit w |}.

Definition set_shouldStop (b : bool) (w : World) : World :=
  {| server := server w; controlUpdates := controlUpdates w; shouldStop := b;
     activeModalDialogs := activeModalDialogs w; globalConfig := globalConfig w;
     redraws := redraws w; frameIndex := frameIndex w; wantExit := wantExit w |}.

Definition set_activeModalDialogs (d : list YesOrNoModalClient) (w : World) : World :=
  {| server := server w; controlUpdates := controlUpdates w; shouldStop := shouldStop w;
     activeModalDialogs := d; globalConfig := globalConfig w;
     redraws := redraws w; frameIndex := frameIndex w; wantExit := wantExit w |}.

Definition set_globalConfig (g : GlobalConfig) (w : World) : World :=
  {| server := server w; controlUpdates := controlUpdates w; shouldStop := shouldStop w;
     activeModalDialogs := activeModalDialogs w; globalConfig := g;
     redraws := redraws w; frameIndex := frameIndex w; wantExit := wantExit w |}.

Definition set_redraws (n : Z) (w : World) : World :=
  {| server := server w; controlUpdates := controlUpdates w; shouldStop := shouldStop w;
     activeModalDialogs := activeModalDialogs w; globalConfig := globalConfig w;
     redraws := n; frameIndex := frameIndex w; wantExit := wantExit w |}.

Definition set_frameIndex (n : Z) (w : World) : World :=
  {| server := server w; controlUpdates := controlUpdates w; shouldStop := shouldStop w;
     activeModalDialogs := activeModalDialogs w; globalConfig := globalConfig w;
     redraws := redraws w; frameIndex := n; wantExit := wantExit w |}.

Definition set_wantExit (b : bool) (w : World) : World :=
  {| server := server w; controlUpdates := controlUpdates w; shouldStop := shouldStop w;
     activeModalDialogs := activeModalDialogs w; globalConfig := globalConfig w;
     redraws := redraws w; frameIndex := frameIndex w; wantExit := b |}.

(** What the user and the network do during one frame. *)
Inductive UIAction : Type :=
| Resolve (index : nat) (yes : bool).   (* a button of the index-th open dialog is pressed *)

Record FrameEnv : Type := {
  statusTitle : string;              (* result of server.GetWindowTitle() *)
  closeRequested : bool;             (* the window's close button was pressed *)
  pulled : ControlUpdates;           (* changes the network delivers *)
  paneChanges : ControlUpdates;      (* changes recorded while panes draw *)
  uiChanges : ControlUpdates;        (* changes recorded while the UI draws *)
  uiActions : list UIAction;         (* dialog buttons pressed while the UI draws *)
  iniSettings : string;              (* result of imgui.SaveIniSettingsToMemory() *)
  windowSize : Z * Z;                (* result of platform.WindowSize() *)
  windowPosition : Z * Z;            (* result of platform.WindowPosition() *)
  configChanged : bool               (* the configuration differs from the saved one *)
}.

(** ** The state-and-trace monad *)

Definition M (A : Type) : Type := World -> A * World * list Call.

Definition value {A} (r : A * World * list Call) : A := fst (fst r).
Definition world {A} (r : A * World * list Call) : World := snd (fst r).
Definition calls {A} (r : A * World * list Call) : list Call := snd r.

Definition ret {A} (a : A) : M A := fun w => (a, w, []).

Definition bind {A B} (m : M A) (f : A -> M B) : M B :=
  fun w =>
    let '(a, w1, t1) := m w in
    let '(b, w2, t2) := f a w1 in
    (b, w2, t1 ++ t2).

Definition call (c : Call) : M unit := fun w => (tt, w, [c]).
Definition gets {A} (f : World -> A) : M A := fun w => (f w, w, []).
Definition modify (f : World -> World) : M unit := fun w => (tt, f w, []).

Declare Scope frame_scope.
Delimit Scope frame_scope with frame.
Notation "x <- m ;; k" := (bind m (fun x => k))
  (at level 61, m at next level, right associativity) : frame_scope.
Notation "m ;; k" := (bind m (fun _ => k))
  (at level 61, right associativity) : frame_scope.

Fixpoint forEach {A} (f : A -> M unit) (l : list A) : M unit :=
  match l with
  | [] => ret tt
  | a :: l' => bind (f a) (fun _ => forEach f l')
  end.

Local Open Scope frame_scope.

(** ** Collaborators *)

(** Modelled from the spec: the windowing collaborator.  [ProcessEvents]
    "may set a close-requested flag", [ShouldStop] reads it and
    [CancelShouldStop] clears it; the other methods only leave a call in
    the trace.  The [Platform] implementations are outside [main.go]. *)
Definition platform_SetWindowTitle (t : string) : M unit := call (SetWindowTitle t).

Definition platform_ProcessEvents (env : FrameEnv) : M unit :=
  call ProcessEvents ;;
  modify (fun w => set_shouldStop (shouldStop w || closeRequested env) w).

Definition platform_NewFrame : M unit := call PlatformNewFrame.
Definition platform_DisplaySize : M unit := call DisplaySize.
Definition platform_FramebufferSize : M unit := call FramebufferSize.
Definition platform_PostRender : M unit := call PostRender.
Definition platform_ShouldStop : M bool := call ShouldStop ;; gets shouldStop.
Definition platform_CancelShouldStop : M unit :=
  call CancelShouldStop ;; modify (set_shouldStop false).

Definition platform_WindowSize (env : FrameEnv) : M (Z * Z) :=
  call WindowSize ;; ret (windowSize env).

Definition platform_WindowPosition (env : FrameEnv) : M (Z * Z) :=
  call WindowPosition ;; ret (windowPosition env).

(** Modelled from the spec: the session collaborator.  A [Disconnected]
    session has "no network activity, returns empty update sets"; a
    connected one merges the network-derived changes into the shared
    batch.  The methods of the [ATCServer] implementations are outside
    [main.go]. *)
Definition isConnected (s : ATCServer) : bool :=
  match s with
  | DisconnectedATCServer => false
  | ConnectedATCServer _ => true
  end.

Definition server_GetWindowTitle (env : FrameEnv) : M string :=
  s <- gets server ;; call (GetWindowTitle s) ;; ret (statusTitle env).

Definition server_GetUpdates (env : FrameEnv) : M unit :=
  s <- gets server ;;
  call (GetUpdates s) ;;
  if isConnected s
  then modify (fun w => set_controlUpdates (controlUpdates w ++ pulled env) w)
  else ret tt.

Definition server_Connected : M bool :=
  s <- gets server ;; call (Connected s) ;; ret (isConnected s).

Definition server_Disconnect : M unit :=
  s <- gets server ;; call (Disconnect s).

(** Modelled from the spec: the update batch ("[isEmpty]: true iff no
    records have been appended since the last reset", "[reset]: clears
    all records") and its three consumers, which receive the pointer
    [controlUpdates] and read the batch it points to.  [ControlUpdates],
    [PositionConfig.Update], [wmShareUpdates] and [audioProcessUpdates]
    are outside [main.go]. *)
Definition controlUpdates_NoUpdates : M bool :=
  call NoUpdates ;;
  gets (fun w => match controlUpdates w with [] => true | _ :: _ => false end).

Definition controlUpdates_Reset : M unit :=
  call Reset ;; modify (set_controlUpdates []).

Definition record (us : ControlUpdates) : M unit :=
  modify (fun w => set_controlUpdates (controlUpdates w ++ us) w).

Definition positionConfig_SendUpdates : M unit := call SendUpdates.

Definition positionConfig_Update : M unit :=
  b <- gets controlUpdates ;; call (PositionConfigUpdate b).

Definition wmShareUpdates : M unit :=
  b <- gets controlUpdates ;; call (WmShareUpdates b).

Definition audioProcessUpdates : M unit :=
  b <- gets controlUpdates ;; call (AudioProcessUpdates b).

Definition positionConfig_GetColorScheme : M unit := call GetColorScheme.

(** Modelled from the spec: the list of open modal dialogs of the UI.
    [uiShowModalDialog] opens a dialog (in front of the others or behind
    them); a dialog stays open until one of its two buttons is pressed,
    which closes it and runs the matching closure.  [uiShowModalDialog]
    and the drawing of dialogs are outside [main.go]. *)
Definition uiShowModalDialog (d : YesOrNoModalClient) (atFront : bool) : M unit :=
  call (UiShowModalDialog d atFront) ;;
  modify (fun w =>
            set_activeModalDialogs
              (if atFront then d :: activeModalDialogs w
               else activeModalDialogs w ++ [d]) w).

Fixpoint removeAt {A} (i : nat) (l : list A) : list A :=
  match l, i with
  | [], _ => []
  | _ :: l', O => l'
  | a :: l', S i' => a :: removeAt i' l'
  end.

(** The two closures of the dialog built at lines 235-246, and the
    closures of dialogs that other collaborators opened. *)
Definition runCallback (cb : Callback) : M unit :=
  match cb with
  | disconnect_ok =>
      server_Disconnect ;;
      modify (set_server DisconnectedATCServer)
  | disconnect_notok =>
      platform_CancelShouldStop ;;
      modify (set_wantExit false)
  | collaborator_closure _ => ret tt
  end.

Definition resolve (a : UIAction) : M unit :=
  match a with
  | Resolve i yes =>
      ds <- gets activeModalDialogs ;;
      match nth_error ds i with
      | None => ret tt
      | Some d =>
          modify (set_activeModalDialogs (removeAt i ds)) ;;
          runCallback (if yes then ok d else notok d)
      end
  end.

(** Modelled from the spec: drawing.  "Drawing code may discover and
    record changes as a side effect"; the UI overlay is where the buttons
    of the open dialogs are pressed.  [wmDrawPanes], [drawUI], the imgui
    binding and the renderer are outside [main.go]. *)
Definition imgui_NewFrame : M unit := call ImguiNewFrame.
Definition imgui_Render : M unit := call ImguiRender.
Definition imgui_RenderedDrawData : M unit := call RenderedDrawData.

Definition imgui_SaveIniSettingsToMemory (env : FrameEnv) : M string :=
  call SaveIniSettingsToMemory ;; ret (iniSettings env).

Definition wmDrawPanes (env : FrameEnv) : M unit :=
  call WmDrawPanes ;; record (paneChanges env).

Definition drawUI (env : FrameEnv) : M unit :=
  call DrawUI ;; record (uiChanges env) ;; forEach resolve (uiActions env).

Definition renderer_RenderImgui : M unit := call RenderImgui.

Definition lg_LogStats : M unit := call LogStats.

(** Modelled from the spec: the configuration collaborator "exposes
    prompt to save if changed": when the configuration differs from the
    saved one a prompt is opened, with closures of its own.
    [GlobalConfig.PromptToSaveIfChanged] is outside [main.go]. *)
Definition savePrompt : YesOrNoModalClient :=
  {| title := "Save current configuration?";
     query := "Configuration has changed. Save current configuration?";
     ok := collaborator_closure "save";
     notok := collaborator_closure "discard" |}.

Definition globalConfig_PromptToSaveIfChanged (env : FrameEnv) : M unit :=
  call PromptToSaveIfChanged ;;
  if configChanged env
  then modify (fun w => set_activeModalDialogs (activeModalDialogs w ++ [savePrompt]) w)
  else ret tt.

(** ** The loop of [main] *)

(** The dialog built at lines 235-246. *)
Definition disconnectDialog : YesOrNoModalClient :=
  {| title := "Disconnect?";
     query := "Currently connected. Ok to disconnect?";
     ok := disconnect_ok;
     notok := disconnect_notok |}.

(** Lines 196-204. *)
Definition propagate : M unit :=
  noUpdates <- controlUpdates_NoUpdates ;;
  if negb noUpdates then
    positionConfig_Update ;;
    wmShareUpdates ;;
    audioProcessUpdates ;;
    (* Reset updates here since we may add new updates in the following
       draw calls that we'd like to have reported the next time around. *)
    controlUpdates_Reset
  else ret tt.

(** Lines 224-228. *)
Definition telemetry (devmode : bool) : M unit :=
  fi <- gets frameIndex ;;
  (if (devmode && (Z.rem fi 600 =? 0)) || (Z.rem fi 3600 =? 0)
   then lg_LogStats else ret tt) ;;
  modify (fun w => set_frameIndex (wrap64 (frameIndex w + 1)) w).

(** Lines 230-260; the result is [true] when the loop breaks. *)
Definition exitCheck (env : FrameEnv) : M bool :=
  stop <- platform_ShouldStop ;;
  if stop then
    we <- gets wantExit ;;
    if negb we then
      modify (set_wantExit true) ;;
      conn <- server_Connected ;;
      (if conn then uiShowModalDialog disconnectDialog false else ret tt) ;;
      (* Grab assorted things that may have changed during this session. *)
      ini <- imgui_SaveIniSettingsToMemory env ;;
      modify (fun w => set_globalConfig
                {| ImGuiSettings := ini;
                   InitialWindowSize := InitialWindowSize (globalConfig w);
                   InitialWindowPosition := InitialWindowPosition (globalConfig w) |} w) ;;
      sz <- platform_WindowSize env ;;
      modify (fun w => set_globalConfig
                {| ImGuiSettings := ImGuiSettings (globalConfig w);
                   InitialWindowSize := sz;
                   InitialWindowPosition := InitialWindowPosition (globalConfig w) |} w) ;;
      pos <- platform_WindowPosition env ;;
      modify (fun w => set_globalConfig
                {| ImGuiSettings := ImGuiSettings (globalConfig w);
                   InitialWindowSize := InitialWindowSize (globalConfig w);
                   InitialWindowPosition := pos |} w) ;;
      (* Do this while we're still running the event loop. *)
      globalConfig_PromptToSaveIfChanged env ;;
      ret false
    else
      n <- gets (fun w => List.length (activeModalDialogs w)) ;;
      if Nat.eqb n 0 then ret true (* good to go *) else ret false
  else ret false.

(** Lines 177-195: title refresh, input pull, send and receive. *)
Definition pullPhases (env : FrameEnv) : M unit :=
  t <- server_GetWindowTitle env ;;
  platform_SetWindowTitle ("vice: " ++ t)%string ;;
  (* Inform imgui about input events from the user. *)
  platform_ProcessEvents env ;;
  modify (fun w => set_redraws (wrap64 (redraws w + 1)) w) ;;
  positionConfig_SendUpdates ;;
  server_GetUpdates env.

(** Lines 207-222: drawing, submission to the renderer, and the wait for
    vsync. *)
Definition drawPhases (env : FrameEnv) : M unit :=
  platform_NewFrame ;;
  imgui_NewFrame ;;
  (* Generate and render vice draw lists *)
  wmDrawPanes env ;;
  (* Prepare our imgui draw lists *)
  positionConfig_GetColorScheme ;;
  drawUI env ;;
  (* Finalize and submit the imgui draw lists *)
  imgui_Render ;;
  platform_DisplaySize ;;
  platform_FramebufferSize ;;
  imgui_RenderedDrawData ;;
  renderer_RenderImgui ;;
  (* Wait for vsync *)
  platform_PostRender.

(** One iteration of the [for] loop, lines 176-261; the result is [true]
    when the iteration ends in [break].  The durations that [timeMarker]
    stores in [stats] are wall-clock time and are left out. *)
Definition loopBody (devmode : bool) (env : FrameEnv) : M bool :=
  pullPhases env ;;
  propagate ;;
  drawPhases env ;;
  telemetry devmode ;;
  exitCheck env.

(** Lines 177-228: the iteration up to its exit check, and the state in
    which the iteration reaches the exit check. *)
Definition beforeExitCheck (devmode : bool) (env : FrameEnv) : M unit :=
  pullPhases env ;;
  propagate ;;
  drawPhases env ;;
  telemetry devmode.

Definition atExitCheck (devmode : bool) (env : FrameEnv) (w : World) : World :=
  world (beforeExitCheck devmode env w).

(** The loop, run on the frames the environment supplies: whether an
    iteration broke out of it, the state it was left in, and the calls of
    every iteration that ran. *)
Fixpoint run (devmode : bool) (envs : list FrameEnv) (w : World)
  : bool * World * list (list Call) :=
  match envs with
  | [] => (false, w, [])
  | env :: envs' =>
      let '(brk, w', tr) := loopBody devmode env w in
      if brk then (true, w', [tr])
      else let '(b, wf, trs) := run devmode envs' w' in (b, wf, tr :: trs)
  end.

Definition exited (r : bool * World * list (list Call)) : bool := fst (fst r).
Definition finalWorld (r : bool * World * list (list Call)) : World := snd (fst r).
Definition iterations (r : bool * World * list (list Call)) : list (list Call) := snd r.
Definition allCalls (r : bool * World * list (list Call)) : list Call := List.concat (snd r).

(** ** Observations on traces *)

Definition count (p : Call -> bool) (tr : list Call) : nat :=
  List.length (filter p tr).

Definition isDisconnect (c : Call) : bool :=
  match c with Disconnect _ => true | _ => false end.

Definition isCancelShouldStop (c : Call) : bool :=
  match c with CancelShouldStop => true | _ => false end.

Definition isPromptToSave (c : Call) : bool :=
  match c with PromptToSaveIfChanged => true | _ => false end.

Definition isShowDialog (c : Call) : bool :=
  match c with UiShowModalDialog _ _ => true | _ => false end.

Definition isReset (c : Call) : bool :=
  match c with Reset => true | _ => false end.

(** The three consumers of the batch, and its reset. *)
Definition isPropagationCall (c : Call) : bool :=
  match c with
  | PositionConfigUpdate _ | WmShareUpdates _ | AudioProcessUpdates _ | Reset => true
  | _ => false
  end.

(** The calls made from inside [drawUI], by the closures of [main]. *)
Definition isClosureCall (c : Call) : bool :=
  match c with Disconnect _ | CancelShouldStop => true | _ => false end.

(** The phases of an iteration, and the phase each call belongs to. *)
Inductive Phase : Type :=
| TitleRefresh | InputPull | Send | Receive | Propagation
| Draw | Present | Telemetry | ExitCheck.

Definition phaseOf (c : Call) : Phase :=
  match c with
  | GetWindowTitle _ | SetWindowTitle _ => TitleRefresh
  | ProcessEvents => InputPull
  | SendUpdates => Send
  | GetUpdates _ => Receive
  | NoUpdates | PositionConfigUpdate _ | WmShareUpdates _
  | AudioProcessUpdates _ | Reset => Propagation
  | PlatformNewFrame | ImguiNewFrame | WmDrawPanes | GetColorScheme | DrawUI
  | ImguiRender | DisplaySize | FramebufferSize | RenderedDrawData | RenderImgui
  | Disconnect _ | CancelShouldStop => Draw
  | PostRender => Present
  | LogStats => Telemetry
  | ShouldStop | Connected _ | UiShowModalDialog _ _ | SaveIniSettingsToMemory
  | WindowSize | WindowPosition | PromptToSaveIfChanged => ExitCheck
  end.

Definition inPhase (p : Phase) (tr : list Call) : Prop :=
  Forall (fun c => phaseOf c = p) tr.

(** The batch as the propagation phase finds it: the batch the title,
    input, send and receive phases leave behind. *)
Definition batchAtPropagation (env : FrameEnv) (w : World) : ControlUpdates :=
  controlUpdates (world (pullPhases env w)).

(** The state the propagation phase starts in. *)
Definition afterReceive (env : FrameEnv) (w : World) : World :=
  set_controlUpdates (batchAtPropagation env w)
    (set_redraws (wrap64 (redraws w + 1))
       (set_shouldStop (shouldStop w || closeRequested env) w)).

(** The state in which [drawUI] gets to the buttons of the open dialogs:
    the batch was reset, or was empty, before drawing recorded into it. *)
Definition beforeButtons (env : FrameEnv) (w : World) : World :=
  set_controlUpdates (paneChanges env ++ uiChanges env)
    (set_redraws (wrap64 (redraws w + 1))
       (set_shouldStop (shouldStop w || closeRequested env) w)).

(** The exit check of the iteration finds the stop flag set and
    [wantExit] still false: the iteration is the first to observe the
    close request. *)
Definition closeFirstObserved (devmode : bool) (env : FrameEnv) (w : World) : bool :=
  shouldStop (atExitCheck devmode env w) && negb (wantExit (atExitCheck devmode env w)).

(** How many dialogs the loop can still open before a close attempt is
    cancelled: one while [wantExit] is false, none once it is true. *)
Definition dialogBudget (w : World) : nat := if wantExit w then 0%nat else 1%nat.

(** The period test of the telemetry phase. *)
Definition logsStats (devmode : bool) (w : World) : bool :=
  (devmode && (Z.rem (frameIndex w) 600 =? 0)) || (Z.rem (frameIndex w) 3600 =? 0).

(** The configuration as the iteration that first observes a close request
    leaves it. *)
Definition grabbedConfig (env : FrameEnv) : GlobalConfig :=
  {| ImGuiSettings := iniSettings env;
     InitialWindowSize := windowSize env;
     InitialWindowPosition := windowPosition env |}.

(** The calls of the propagation phase, given the batch it finds. *)
Definition propagationCalls (b : ControlUpdates) : list Call :=
  match b with
  | [] => [NoUpdates]
  | _ :: _ =>
      [NoUpdates; PositionConfigUpdate b; WmShareUpdates b; AudioProcessUpdates b; Reset]
  end.

(** Sample inputs: a frame of the given close request, network changes,
    button presses and configuration state, and the state at the start of
    the loop with the given session. *)
Definition frameEnv (close : bool) (net : ControlUpdates) (acts : list UIAction)
           (changed : bool) : FrameEnv :=
  {| statusTitle := "EWR_TWR";
     closeRequested := close;
     pulled := net;
     paneChanges := [];
     uiChanges := [];
     uiActions := acts;
     iniSettings := "[Window][Debug]";
     windowSize := (1920, 1080);
     windowPosition := (100, 100);
     configChanged := changed |}.

Definition startWorld (s : ATCServer) : World :=
  {| server := s;
     controlUpdates := [];
     shouldStop := false;
     activeModalDialogs := [];
     globalConfig := {| ImGuiSettings := "";
                        InitialWindowSize := (1280, 720);
                        InitialWindowPosition := (0, 0) |};
     redraws := 0;
     frameIndex := 0;
     wantExit := false |}.

(** ** Further observations on traces and runs *)

Definition isLogStats (c : Call) : bool :=
  match c with LogStats => true | _ => false end.

(** The records handed to each of the three consumers, call after call. *)
Definition positionBatches (tr : list Call) : ControlUpdates :=
  flat_map (fun c => match c with PositionConfigUpdate b => b | _ => [] end) tr.

Definition paneBatches (tr : list Call) : ControlUpdates :=
  flat_map (fun c => match c with WmShareUpdates b => b | _ => [] end) tr.

Definition audioBatches (tr : list Call) : ControlUpdates :=
  flat_map (fun c => match c with AudioProcessUpdates b => b | _ => [] end) tr.

(** The records that enter the batch during a run: in every iteration
    that runs, what the network delivers to a connected session, then
    what the panes and the UI record while they draw. *)
Fixpoint recorded (devmode : bool) (envs : list FrameEnv) (w : World)
  : ControlUpdates :=
  match envs with
  | [] => []
  | env :: envs' =>
      (if isConnected (server w) then pulled env else [])
        ++ paneChanges env ++ uiChanges env
        ++ (if value (loopBody devmode env w) then []
            else recorded devmode envs' (world (loopBody devmode env w)))
  end.

(** The values of Go's [int]. *)
Definition inInt (z : Z) : Prop := - 2 ^ 63 <= z < 2 ^ 63.

(** ** The rest of [main]: start-up, the way out, and the deferred handler

    Lines 62-168 and 263-276 of [main.go].  A call to a collaborator
    leaves a [MainCall]; the calls of the loop are those of [run].  The
    two [panic]s of [main] and its two [defer]s are modelled as Go runs
    them: a panic skips the rest of the body, and the deferred functions
    run last-in first-out when the body is left either way. *)

Record Flags : Type := {
  logTraffic : bool;      (* -log-traffic *)
  cpuprofile : string;    (* -cpuprofile *)
  memprofile : string;    (* -memprofile *)
  devmode : bool          (* -devmode *)
}.

(** What the collaborators answer during start-up and on the way out:
    [None] for success, [Some e] for the error [e]. *)
Record StartupEnv : Type := {
  cpuCreateError : option string;      (* os.Create, CPU profile *)
  cpuStartError : option string;       (* pprof.StartCPUProfile(f) *)
  audioError : option string;          (* audioInit() *)
  loadedConfig : GlobalConfig;         (* what LoadOrMakeDefaultConfig() leaves *)
  goos : string;                       (* runtime.GOOS *)
  platformError : option string;       (* NewGLFWPlatform(...) *)
  sectorFileError : option string;     (* database.LoadSectorFile(...) *)
  positionFileError : option string;   (* database.LoadPositionFile(...) *)
  rendererError : option string;       (* NewOpenGL2Renderer(...) *)
  startupDialogs : list YesOrNoModalClient;  (* dialogs open when the loop starts *)
  memCreateError : option string;      (* os.Create, memory profile *)
  memWriteError : option string        (* pprof.WriteHeapProfile(f) *)
}.

(** What a global such as [platform] or [renderer] holds: nothing yet,
    the value a failed constructor returned with its error, or a created
    object. *)
Inductive Slot : Type := Unassigned | FailedResult | Created.

(** The [database] fields the closures given to [uiAddError] look at. *)
Inductive ErrorField : Type := sectorFileLoadError | positionFileLoadError.

Inductive MainCall : Type :=
| FlagParse
| NewLogger (toStderr dev : bool) (size : Z)
| OsCreate (path : string)
| LgErrorf (format : string) (args : list string)
| StartCPUProfile
| StopCPUProfile
| ImguiInit
| InitializeStaticDatabase
| AudioInit
| LoadOrMakeDefaultConfig
| MuteFor (seconds : Z)
| NewGLFWPlatform (size position : Z * Z) (multisample : bool)
| GetClipboard
| SetClipboard
| FontsInit
| VatsimInit
| WmInit
| LoadSectorFile
| LoadPositionFile
| UiAddError (message : string) (clearedWhenNil : ErrorField)
| MakeConfigActive
| NewOpenGL2Renderer
| UiInit
| NewControlUpdates
| LgPrintf (message : string)
| InLoop (c : Call)
| WriteHeapProfile (fileCreated : bool)
| FileClose (fileCreated : bool)
| GetErrorLog
| FmtPrint
| DebugStack
| ShowFatalErrorDialog (err : string)
| SaveLogs
| RendererDispose (receiver : Slot)
| PlatformDispose (receiver : Slot)
| ContextDestroy.

Inductive Deferred : Type :=
| recoverAndCleanUp     (* the closure of lines 66-79 *)
| stopCPUProfile.       (* defer pprof.StopCPUProfile(), line 96 *)

(** The globals [platform] and [renderer], and the deferred calls of
    [main], most recent first. *)
Record Proc : Type := {
  platform : Slot;
  renderer : Slot;
  deferred : list Deferred
}.

Inductive Step (A : Type) : Type :=
| Done (a : A)
| Panicking (v : string)
| NeverReturns.
Arguments Done {A} a.
Arguments Panicking {A} v.
Arguments NeverReturns {A}.

Definition P (A : Type) : Type := Proc -> Step A * Proc * list MainCall.

Definition pstep {A} (r : Step A * Proc * list MainCall) : Step A := fst (fst r).
Definition pstate {A} (r : Step A * Proc * list MainCall) : Proc := snd (fst r).
Definition pcalls {A} (r : Step A * Proc * list MainCall) : list MainCall := snd r.

Definition pret {A} (a : A) : P A := fun p => (Done a, p, []).

Definition pbind {A B} (m : P A) (f : A -> P B) : P B :=
  fun p =>
    let '(s, p1, t1) := m p in
    match s with
    | Done a => let '(s2, p2, t2) := f a p1 in (s2, p2, t1 ++ t2)
    | Panicking v => (Panicking v, p1, t1)
    | NeverReturns => (NeverReturns, p1, t1)
    end.

Definition pcall (c : MainCall) : P unit := fun p => (Done tt, p, [c]).
Definition panic {A} (v : string) : P A := fun p => (Panicking v, p, []).
Definition defer (d : Deferred) : P unit :=
  fun p => (Done tt,
            {| platform := platform p; renderer := renderer p;
               deferred := d :: deferred p |}, []).
Definition assignPlatform (s : Slot) : P unit :=
  fun p => (Done tt,
            {| platform := s; renderer := renderer p; deferred := deferred p |}, []).
Definition assignRenderer (s : Slot) : P unit :=
  fun p => (Done tt,
            {| platform := platform p; renderer := s; deferred := deferred p |}, []).

Declare Scope main_scope.
Delimit Scope main_scope with main.
Notation "x <- m ;; k" := (pbind m (fun x => k))
  (at level 61, m at next level, right associativity) : main_scope.
Notation "m ;; k" := (pbind m (fun _ => k))
  (at level 61, right associativity) : main_scope.

Local Open Scope main_scope.

(** Lines 89-99. *)
Definition profileCPU (flags : Flags) (env : StartupEnv) : P unit :=
  match cpuprofile flags with
  | EmptyString => pret tt
  | path =>
      pcall (OsCreate path) ;;
      match cpuCreateError env with
      | Some e =>
          pcall (LgErrorf "%s: unable to create CPU profile file: %v" [path; e])
      | None =>
          pcall StartCPUProfile ;;
          match cpuStartError env with
          | Some e => pcall (LgErrorf "unable to start CPU profile: %v" [e])
          | None => defer stopCPUProfile
          end
      end
  end.

(** Lines 101-115. *)
Definition initialize (env : StartupEnv) : P unit :=
  pcall ImguiInit ;;
  pcall InitializeStaticDatabase ;;
  (* server = &DisconnectedATCServer{} *)
  pcall AudioInit ;;
  match audioError env with
  | Some e => pcall (LgErrorf "Unable to initialize audio: %v" [e])
  | None => pret tt
  end ;;
  pcall LoadOrMakeDefaultConfig ;;
  (* Avoid a flurry of sounds at the start *)
  pcall (MuteFor 3).

(** Lines 117-135. *)
Definition createWindow (env : StartupEnv) : P unit :=
  let multisample := negb (String.eqb (goos env) "darwin") in
  pcall (NewGLFWPlatform (InitialWindowSize (loadedConfig env))
                         (InitialWindowPosition (loadedConfig env)) multisample) ;;
  match platformError env with
  | Some e =>
      assignPlatform FailedResult ;;
      panic ("Unable to create application window: " ++ e)%string
  | None =>
      assignPlatform Created ;;
      pcall GetClipboard ;;
      pcall SetClipboard
  end.

(** Lines 137-159. *)
Definition loadData (env : StartupEnv) : P unit :=
  pcall FontsInit ;;
  pcall VatsimInit ;;
  pcall WmInit ;;
  pcall LoadSectorFile ;;
  match sectorFileError env with
  | Some _ =>
      pcall (UiAddError
               "Unable to load sector file. Please specify a new one using Settings/Files..."
               sectorFileLoadError)
  | None => pret tt
  end ;;
  pcall LoadPositionFile ;;
  match positionFileError env with
  | Some _ =>
      pcall (UiAddError
               "Unable to load position file. Please specify a new one using Settings/Files..."
               positionFileLoadError)
  | None => pret tt
  end ;;
  pcall MakeConfigActive.

(** Lines 161-168. *)
Definition createRenderer (env : StartupEnv) : P unit :=
  pcall NewOpenGL2Renderer ;;
  match rendererError env with
  | Some e =>
      assignRenderer FailedResult ;;
      panic ("Unable to initialize OpenGL: " ++ e)%string
  | None =>
      assignRenderer Created ;;
      pcall UiInit ;;
      pcall NewControlUpdates
  end.

(** The state the loop starts in: [server] as line 104 leaves it, the
    configuration as loaded, the batch of line 168, the zero value of
    [stats], and the locals of lines 173-174. *)
Definition initialWorld (env : StartupEnv) : World :=
  {| server := DisconnectedATCServer;
     controlUpdates := [];
     shouldStop := false;
     activeModalDialogs := startupDialogs env;
     globalConfig := loadedConfig env;
     redraws := 0;
     frameIndex := 0;
     wantExit := false |}.

(** Lines 172-261: the loop, on the frames the environment supplies. *)
Definition eventLoop (flags : Flags) (env : StartupEnv) (frames : list FrameEnv)
  : P unit :=
  pcall (LgPrintf "Starting main loop") ;;
  fun p =>
    let r := run (devmode flags) frames (initialWorld env) in
    (if exited r then Done tt else NeverReturns, p, map InLoop (allCalls r)).

(** Lines 263-272. *)
Definition profileMemory (flags : Flags) (env : StartupEnv) : P unit :=
  match memprofile flags with
  | EmptyString => pret tt
  | path =>
      pcall (OsCreate path) ;;
      let created := match memCreateError env with None => true | Some _ => false end in
      match memCreateError env with
      | Some e =>
          pcall (LgErrorf "%s: unable to create memory profile file: %v" [path; e])
      | None => pret tt
      end ;;
      pcall (WriteHeapProfile created) ;;
      match memWriteError env with
      | Some e =>
          pcall (LgErrorf "%s: unable to write memory profile file: %v" [path; e])
      | None => pret tt
      end ;;
      pcall (FileClose created)
  end.

(** Lines 274-276. *)
Definition printErrorLog (flags : Flags) : P unit :=
  if devmode flags then pcall GetErrorLog ;; pcall FmtPrint else pret tt.

(** Lines 81-276, the body of [main] after its first [defer]. *)
Definition mainBody (flags : Flags) (env : StartupEnv) (frames : list FrameEnv)
  : P unit :=
  defer recoverAndCleanUp ;;
  pcall FlagParse ;;
  (* Initialize the logging system first and foremost. *)
  pcall (NewLogger true (devmode flags) 50000) ;;
  profileCPU flags env ;;
  initialize env ;;
  createWindow env ;;
  loadData env ;;
  createRenderer env ;;
  eventLoop flags env frames ;;
  profileMemory flags env ;;
  printErrorLog flags.

Local Close Scope main_scope.

(** How a run of [main] ends.  [Undetermined]: the deferred clean-up
    called a method on a global that holds no created object; what such
    a call does is not in [main.go]. *)
Inductive Outcome : Type :=
| Returned
| Recovered (v : string)
| Crashed (v : string)
| Looping
| Undetermined.

(** Lines 66-79, the deferred closure: its calls, and whether it ran to
    its end. *)
Definition cleanUp (panicking : option string) (p : Proc) : bool * list MainCall :=
  let report := match panicking with
                | Some v => [DebugStack; LgErrorf "Panic stack: %s" []; ShowFatalErrorDialog v]
                | None => []
                end in
  (* Clean up in backwards order from how things were created. *)
  match renderer p with
  | Created =>
      match platform p with
      | Created =>
          (true, report ++ [SaveLogs; RendererDispose Created; PlatformDispose Created;
                            ContextDestroy])
      | s => (false, report ++ [SaveLogs; RendererDispose Created; PlatformDispose s])
      end
  | s => (false, report ++ [SaveLogs; RendererDispose s])
  end.

(** The deferred calls, last-in first-out; [recover()] in the closure
    ends the panic. *)
Fixpoint runDeferred (ds : list Deferred) (panicking recovered : option string)
         (p : Proc) : Outcome * list MainCall :=
  match ds with
  | [] =>
      (match panicking, recovered with
       | Some v, _ => Crashed v
       | None, Some v => Recovered v
       | None, None => Returned
       end, [])
  | stopCPUProfile :: ds' =>
      let '(o, t) := runDeferred ds' panicking recovered p in (o, StopCPUProfile :: t)
  | recoverAndCleanUp :: ds' =>
      let '(finished, t1) := cleanUp panicking p in
      if finished then
        let '(o, t2) := runDeferred ds' None
                          (match panicking with Some v => Some v | None => recovered end) p in
        (o, t1 ++ t2)
      else (Undetermined, t1)
  end.

(** The process as [main] finds it, and the calls a piece of [main] makes
    from there. *)
Definition startProc : Proc :=
  {| platform := Unassigned; renderer := Unassigned; deferred := [] |}.

Definition callsOf {A} (m : P A) : list MainCall := pcalls (m startProc).

(** [main]: how it ends and the calls it makes, given the flags, the
    answers of the collaborators and the frames of the loop. *)
Definition main (flags : Flags) (env : StartupEnv) (frames : list FrameEnv)
  : Outcome * list MainCall :=
  let '(s, p, t) := mainBody flags env frames startProc in
  match s with
  | NeverReturns => (Looping, t)
  | Done _ => let '(o, t2) := runDeferred (deferred p) None None p in (o, t ++ t2)
  | Panicking v => let '(o, t2) := runDeferred (deferred p) (Some v) None p in (o, t ++ t2)
  end.

(** Observations on the calls of [main]. *)
Definition countMain (q : MainCall -> bool) (tr : list MainCall) : nat :=
  List.length (filter q tr).

Definition isStopCPUProfile (c : MainCall) : bool :=
  match c with StopCPUProfile => true | _ => false end.
Definition isStartCPUProfile (c : MainCall) : bool :=
  match c with StartCPUProfile => true | _ => false end.
Definition isWriteHeapProfile (c : MainCall) : bool :=
  match c with WriteHeapProfile _ => true | _ => false end.
Definition isFileClose (c : MainCall) : bool :=
  match c with FileClose _ => true | _ => false end.
Definition isUiAddError (c : MainCall) : bool :=
  match c with UiAddError _ _ => true | _ => false end.
Definition isInLoop (c : MainCall) : bool :=
  match c with InLoop _ => true | _ => false end.
Definition isPrintErrorLog (c : MainCall) : bool :=
  match c with FmtPrint => true | _ => false end.

Definition failed (e : option string) : bool :=
  match e with Some _ => true | None => false end.

(** CPU profiling was asked for and started. *)
Definition profiling (flags : Flags) (env : StartupEnv) : bool :=
  match cpuprofile flags with
  | EmptyString => false
  | _ => negb (failed (cpuCreateError env)) && negb (failed (cpuStartError env))
  end.

(** Sample inputs. *)
Definition noFlags : Flags :=
  {| logTraffic := false; cpuprofile := ""; memprofile := ""; devmode := false |}.

Definition goodStart : StartupEnv :=
  {| cpuCreateError := None; cpuStartError := None; audioError := None;
     loadedConfig := {| ImGuiSettings := ""; InitialWindowSize := (1280, 720);
                        InitialWindowPosition := (0, 0) |};
     goos := "linux"; platformError := None; sectorFileError := None;
     positionFileError := None; rendererError := None; startupDialogs := [];
     memCreateError := None; memWriteError := None |}.

Definition isLoopStart (c : MainCall) : bool :=
  match c with LgPrintf _ => true | _ => false end.

Definition nonEmpty (s : string) : bool :=
  match s with EmptyString => false | _ => true end.

(** The calls made while [main] starts up, and the calls made between
    the loop and the return of [main]. *)
Definition isStartupCall (c : MainCall) : bool :=
  match c with
  | FlagParse | NewLogger _ _ _ | OsCreate _ | LgErrorf _ _ | StartCPUProfile
  | ImguiInit | InitializeStaticDatabase | AudioInit | LoadOrMakeDefaultConfig
  | MuteFor _ | NewGLFWPlatform _ _ _ | GetClipboard | SetClipboard | FontsInit
  | VatsimInit | WmInit | LoadSectorFile | LoadPositionFile | UiAddError _ _
  | MakeConfigActive | NewOpenGL2Renderer | UiInit | NewControlUpdates => true
  | _ => false
  end.

Definition isWayOutCall (c : MainCall) : bool :=
  match c with
  | OsCreate _ | LgErrorf _ _ | WriteHeapProfile _ | FileClose _ | GetErrorLog
  | FmtPrint => true
  | _ => false
  end.

(** The message of the fatal dialog, when start-up fails. *)
Definition fatalMessage (env : StartupEnv) : option string :=
  match platformError env, rendererError env with
  | Some e, _ => Some ("Unable to create application window: " ++ e)%string
  | None, Some e => Some ("Unable to initialize OpenGL: " ++ e)%string
  | None, None => None
  end.

Definition isLooping (o : Outcome) : bool :=
  match o with Looping => true | _ => false end.
Definition isReturned (o : Outcome) : bool :=
  match o with Returned => true | _ => false end.


(** Counting a kind of call in one piece of [main], case by case. *)
Ltac count_in_piece :=
  intros flags env;
  destruct flags as [lt cp mp dm];
  destruct env as [cce cse ae lc os pe se pse re sd mce mwe];
  unfold callsOf, profileCPU, initialize, createWindow, loadData, createRenderer,
    profileMemory, printErrorLog, nonEmpty, failed;
  cbn [cpuprofile memprofile devmode cpuCreateError cpuStartError audioError
       loadedConfig goos platformError sectorFileError positionFileError
       rendererError memCreateError memWriteError];
  repeat split;
  repeat match goal with
         | |- context [match ?x with _ => _ end] => is_var x; destruct x
         end;
  reflexivity.

(** ** Lemmas on the monad and on the pieces of the loop *)

Lemma count_app (p : Call -> bool) (a b : list Call) :
  count p (a ++ b) = (count p a + count p b)%nat.
Proof. unfold count. rewrite filter_app, length_app. reflexivity. Qed.

Lemma count_cons (p : Call -> bool) (c : Call) (a : list Call) :
  count p (c :: a) = ((if p c then 1 else 0) + count p a)%nat.
Proof. unfold count. simpl. destruct (p c); reflexivity. Qed.

Lemma count_nil (p : Call -> bool) : count p [] = 0%nat.
Proof. reflexivity. Qed.

Lemma count_zero_of_Forall (p q : Call -> bool) (tr : list Call) :
  (forall c, q c = true -> p c = false) ->
  Forall (fun c => q c = true) tr -> count p tr = 0%nat.
Proof.
  intros Hpq H. induction H as [|c tr Hc _ IH]; [reflexivity|].
  rewrite count_cons, (Hpq c Hc), IH. reflexivity.
Qed.

Lemma propagate_eq (w : World) :
  propagate w =
  match controlUpdates w with
  | [] => (tt, w, [NoUpdates])
  | _ :: _ =>
      (tt, set_controlUpdates [] w,
       [NoUpdates; PositionConfigUpdate (controlUpdates w);
        WmShareUpdates (controlUpdates w);
        AudioProcessUpdates (controlUpdates w); Reset])
  end.
Proof. destruct w as [s [|u cu] ss ds g r f we]; reflexivity. Qed.

Lemma telemetry_eq (devmode : bool) (w : World) :
  telemetry devmode w =
  (tt, set_frameIndex (wrap64 (frameIndex w + 1)) w,
   if logsStats devmode w then [LogStats] else []).
Proof.
  unfold telemetry, logsStats, bind, gets, modify, lg_LogStats, call, ret,
    value, world, calls; cbn.
  destruct ((devmode && (Z.rem (frameIndex w) 600 =? 0))
            || (Z.rem (frameIndex w) 3600 =? 0)); reflexivity.
Qed.

(** The exit check, case by case. *)
Lemma exitCheck_idle (env : FrameEnv) (w : World) :
  shouldStop w = false -> exitCheck env w = (false, w, [ShouldStop]).
Proof.
  destruct w as [s cu ss ds g r f we]; cbn; intros ->; reflexivity.
Qed.

Lemma exitCheck_waiting (env : FrameEnv) (w : World) :
  shouldStop w = true -> wantExit w = true ->
  exitCheck env w =
  (match activeModalDialogs w with [] => true | _ :: _ => false end, w, [ShouldStop]).
Proof.
  destruct w as [s cu ss [|d ds] g r f we]; cbn; intros -> ->; reflexivity.
Qed.

Lemma exitCheck_first (env : FrameEnv) (w : World) :
  shouldStop w = true -> wantExit w = false ->
  exitCheck env w =
  (false,
   set_activeModalDialogs
     (activeModalDialogs w
        ++ (if isConnected (server w) then [disconnectDialog] else [])
        ++ (if configChanged env then [savePrompt] else []))
     (set_globalConfig (grabbedConfig env) (set_wantExit true w)),
   [ShouldStop; Connected (server w)]
     ++ (if isConnected (server w) then [UiShowModalDialog disconnectDialog false] else [])
     ++ [SaveIniSettingsToMemory; WindowSize; WindowPosition; PromptToSaveIfChanged]).
Proof.
  destruct w as [s cu ss ds g r f we]; cbn; intros -> ->.
  destruct env as [t c p pc uc ua ini sz pos [|]], s;
    cbv - [app]; cbn [app]; rewrite <- ?app_assoc, ?app_nil_r; reflexivity.
Qed.

Lemma result_eta {A} (r : A * World * list Call) : r = (value r, world r, calls r).
Proof. destruct r as [[a w] t]; reflexivity. Qed.

Lemma value_bind {A B} (m : M A) (f : A -> M B) (w : World) :
  value (bind m f w) = value (f (value (m w)) (world (m w))).
Proof.
  unfold bind. destruct (m w) as [[a w1] t1]; cbn.
  destruct (f a w1) as [[b w2] t2]; reflexivity.
Qed.

Lemma world_bind {A B} (m : M A) (f : A -> M B) (w : World) :
  world (bind m f w) = world (f (value (m w)) (world (m w))).
Proof.
  unfold bind. destruct (m w) as [[a w1] t1]; cbn.
  destruct (f a w1) as [[b w2] t2]; reflexivity.
Qed.

Lemma calls_bind {A B} (m : M A) (f : A -> M B) (w : World) :
  calls (bind m f w) = calls (m w) ++ calls (f (value (m w)) (world (m w))).
Proof.
  unfold bind. destruct (m w) as [[a w1] t1]; cbn.
  destruct (f a w1) as [[b w2] t2]; reflexivity.
Qed.

(** What was recorded since the last reset, and what the receive phase
    merged into it. *)
Lemma batchAtPropagation_eq (env : FrameEnv) (w : World) :
  batchAtPropagation env w
  = if isConnected (server w) then controlUpdates w ++ pulled env
    else controlUpdates w.
Proof. destruct w as [s cu ss ds g r f we]; destruct s; reflexivity. Qed.

Lemma pullPhases_eq (env : FrameEnv) (w : World) :
  pullPhases env w =
  (tt, afterReceive env w,
   [GetWindowTitle (server w); SetWindowTitle ("vice: " ++ statusTitle env)%string;
    ProcessEvents; SendUpdates; GetUpdates (server w)]).
Proof. destruct w as [s cu ss ds g r f we]; destruct s; reflexivity. Qed.

Lemma drawPhases_eq (env : FrameEnv) (w : World) :
  drawPhases env w =
  let d := drawUI env (set_controlUpdates (controlUpdates w ++ paneChanges env) w) in
  (tt, world d,
   [PlatformNewFrame; ImguiNewFrame; WmDrawPanes; GetColorScheme]
     ++ calls d
     ++ [ImguiRender; DisplaySize; FramebufferSize; RenderedDrawData; RenderImgui;
         PostRender]).
Proof.
  cbv zeta. rewrite (result_eta (drawPhases env w)). unfold drawPhases.
  repeat (rewrite ?value_bind, ?world_bind, ?calls_bind; cbv beta).
  destruct w as [s cu ss ds g r f we]; cbn - [drawUI].
  destruct (drawUI env _) as [[[] wd] td]; reflexivity.
Qed.

(** The iteration, cut at its phases. *)
Lemma loopBody_eq (devmode : bool) (env : FrameEnv) (w : World) :
  loopBody devmode env w =
  let p := propagate (afterReceive env w) in
  let d := drawUI env (set_controlUpdates
                         (controlUpdates (world p) ++ paneChanges env) (world p)) in
  let t := telemetry devmode (world d) in
  let x := exitCheck env (world t) in
  (value x, world x,
   [GetWindowTitle (server w); SetWindowTitle ("vice: " ++ statusTitle env)%string;
    ProcessEvents; SendUpdates; GetUpdates (server w)]
     ++ calls p
     ++ [PlatformNewFrame; ImguiNewFrame; WmDrawPanes; GetColorScheme]
     ++ calls d
     ++ [ImguiRender; DisplaySize; FramebufferSize; RenderedDrawData; RenderImgui;
         PostRender]
     ++ calls t ++ calls x).
Proof.
  cbv zeta. rewrite (result_eta (loopBody devmode env w)). unfold loopBody.
  repeat (rewrite ?value_bind, ?world_bind, ?calls_bind; cbv beta).
  rewrite pullPhases_eq; cbn [value world calls fst snd].
  rewrite drawPhases_eq; cbn [value world calls fst snd].
  rewrite <- !app_assoc. reflexivity.
Qed.

(** What pressing a button does: nothing the loop can see (no such
    dialog, or a dialog of another collaborator), or one of the two
    closures of [main]. *)
Lemma resolve_cases (a : UIAction) (w : World) :
  (exists ds, resolve a w = (tt, set_activeModalDialogs ds w, []))
  \/ (exists ds, resolve a w =
        (tt, set_server DisconnectedATCServer (set_activeModalDialogs ds w),
         [Disconnect (server w)]))
  \/ (exists ds, resolve a w =
        (tt, set_wantExit false (set_shouldStop false (set_activeModalDialogs ds w)),
         [CancelShouldStop])).
Proof.
  destruct a as [i yes]. destruct w as [s cu ss ds g r f we].
  unfold resolve, bind, gets; cbn.
  destruct (nth_error ds i) as [d|].
  - destruct (if yes then ok d else notok d);
      [right; left | right; right | left]; eexists; reflexivity.
  - left. exists ds. reflexivity.
Qed.

Section Resolving.

Variables (acts : list UIAction).

Lemma resolved_frame (w : World) :
  controlUpdates (world (forEach resolve acts w)) = controlUpdates w
  /\ globalConfig (world (forEach resolve acts w)) = globalConfig w
  /\ redraws (world (forEach resolve acts w)) = redraws w
  /\ frameIndex (world (forEach resolve acts w)) = frameIndex w.
Proof.
  revert w.
  induction acts as [|a l IH]; intros w; [repeat split|].
  cbn [forEach]. rewrite world_bind.
  destruct (IH (world (resolve a w))) as (H1 & H2 & H3 & H4).
  rewrite H1, H2, H3, H4.
  destruct (resolve_cases a w) as [[ds E]|[[ds E]|[ds E]]]; rewrite E;
    repeat split.
Qed.

Lemma resolved_calls (w : World) :
  Forall (fun c => isClosureCall c = true) (calls (forEach resolve acts w)).
Proof.
  revert w.
  induction acts as [|a l IH]; intros w; [constructor|].
  cbn [forEach]. rewrite calls_bind. apply Forall_app; split; [|apply IH].
  destruct (resolve_cases a w) as [[ds E]|[[ds E]|[ds E]]]; rewrite E;
    repeat constructor.
Qed.

(** Only the [notok] closure clears [wantExit] and the stop flag. *)
Lemma resolved_flags (w : World) :
  wantExit (world (forEach resolve acts w))
    = wantExit w && (count isCancelShouldStop (calls (forEach resolve acts w)) =? 0)%nat
  /\ shouldStop (world (forEach resolve acts w))
    = shouldStop w && (count isCancelShouldStop (calls (forEach resolve acts w)) =? 0)%nat.
Proof.
  revert w.
  induction acts as [|a l IH]; intros w.
  - cbn. rewrite !andb_true_r. split; reflexivity.
  - cbn [forEach]. rewrite world_bind, calls_bind, count_app.
    destruct (IH (world (resolve a w))) as [H1 H2]. rewrite H1, H2.
    destruct (resolve_cases a w) as [[ds E]|[[ds E]|[ds E]]]; rewrite E; cbn.
    + split; reflexivity.
    + split; reflexivity.
    + rewrite !andb_false_r. split; reflexivity.
Qed.

(** Only the [ok] closure replaces the session. *)
Lemma resolved_server (w : World) :
  server (world (forEach resolve acts w))
    = if (count isDisconnect (calls (forEach resolve acts w)) =? 0)%nat
      then server w else DisconnectedATCServer.
Proof.
  revert w.
  induction acts as [|a l IH]; intros w; [reflexivity|].
  cbn [forEach]. rewrite world_bind, calls_bind, count_app, IH.
  destruct (resolve_cases a w) as [[ds E]|[[ds E]|[ds E]]]; rewrite E; cbn;
    try reflexivity.
  destruct (count isDisconnect _ =? 0)%nat; reflexivity.
Qed.

End Resolving.

Lemma drawUI_eq (env : FrameEnv) (w : World) :
  drawUI env w =
  let r := forEach resolve (uiActions env)
             (set_controlUpdates (controlUpdates w ++ uiChanges env) w) in
  (tt, world r, DrawUI :: calls r).
Proof.
  cbv zeta. unfold drawUI, bind, call, record, modify.
  destruct (forEach resolve _ _) as [[[] w'] t]; reflexivity.
Qed.

(** One iteration, in full: the buttons pressed while the UI is drawn are
    the only part that is not fixed by the state and the environment. *)
Lemma propagate_afterReceive (env : FrameEnv) (w : World) :
  propagate (afterReceive env w)
  = (tt, set_controlUpdates [] (afterReceive env w),
     propagationCalls (batchAtPropagation env w)).
Proof.
  rewrite propagate_eq. unfold afterReceive.
  generalize (batchAtPropagation env w) as b. intros b.
  destruct w as [s cu ss ds g r f we], b; reflexivity.
Qed.

Lemma atExitCheck_eq (devmode : bool) (env : FrameEnv) (w : World) :
  atExitCheck devmode env w
  = set_frameIndex (wrap64 (frameIndex w + 1))
      (world (forEach resolve (uiActions env) (beforeButtons env w))).
Proof.
  unfold atExitCheck, beforeExitCheck.
  repeat (rewrite ?world_bind; cbv beta).
  rewrite pullPhases_eq; cbn [value world calls fst snd].
  rewrite propagate_afterReceive; cbn [value world calls fst snd].
  rewrite drawPhases_eq; cbv zeta; cbn [value world calls fst snd].
  rewrite drawUI_eq; cbv zeta; cbn [value world calls fst snd].
  rewrite telemetry_eq; cbn [value world calls fst snd].
  match goal with
  | |- context [forEach resolve _ ?W] => change W with (beforeButtons env w)
  end.
  destruct (resolved_frame (uiActions env) (beforeButtons env w)) as (_ & _ & _ & F).
  rewrite F. reflexivity.
Qed.

Lemma loopBody_explicit (devmode : bool) (env : FrameEnv) (w : World) :
  loopBody devmode env w =
  (value (exitCheck env (atExitCheck devmode env w)),
   world (exitCheck env (atExitCheck devmode env w)),
   [GetWindowTitle (server w); SetWindowTitle ("vice: " ++ statusTitle env)%string;
    ProcessEvents; SendUpdates; GetUpdates (server w)]
     ++ propagationCalls (batchAtPropagation env w)
     ++ [PlatformNewFrame; ImguiNewFrame; WmDrawPanes; GetColorScheme; DrawUI]
     ++ calls (forEach resolve (uiActions env) (beforeButtons env w))
     ++ [ImguiRender; DisplaySize; FramebufferSize; RenderedDrawData; RenderImgui;
         PostRender]
     ++ (if logsStats devmode w then [LogStats] else [])
     ++ calls (exitCheck env (atExitCheck devmode env w))).
Proof.
  rewrite atExitCheck_eq, loopBody_eq; cbv zeta.
  rewrite propagate_afterReceive; cbn [value world calls fst snd].
  rewrite drawUI_eq; cbv zeta; cbn [value world calls fst snd].
  rewrite telemetry_eq; cbn [value world calls fst snd].
  match goal with
  | |- context [forEach resolve _ ?W] => change W with (beforeButtons env w)
  end.
  destruct (resolved_frame (uiActions env) (beforeButtons env w)) as (_ & _ & _ & F).
  unfold logsStats. rewrite F. reflexivity.
Qed.

(** The state at the exit check, field by field. *)
Lemma atExitCheck_fields (devmode : bool) (env : FrameEnv) (w : World) :
  let cbs := calls (forEach resolve (uiActions env) (beforeButtons env w)) in
  wantExit (atExitCheck devmode env w)
  = wantExit w && (count isCancelShouldStop cbs =? 0)%nat
  /\ shouldStop (atExitCheck devmode env w)
     = (shouldStop w || closeRequested env) && (count isCancelShouldStop cbs =? 0)%nat
  /\ server (atExitCheck devmode env w)
     = (if (count isDisconnect cbs =? 0)%nat then server w else DisconnectedATCServer)
  /\ globalConfig (atExitCheck devmode env w) = globalConfig w
  /\ controlUpdates (atExitCheck devmode env w) = paneChanges env ++ uiChanges env
  /\ frameIndex (atExitCheck devmode env w) = wrap64 (frameIndex w + 1)
  /\ activeModalDialogs (atExitCheck devmode env w)
     = activeModalDialogs (world (forEach resolve (uiActions env) (beforeButtons env w))).
Proof.
  cbv zeta. rewrite atExitCheck_eq.
  destruct (resolved_frame (uiActions env) (beforeButtons env w)) as (F1 & F2 & _ & _).
  destruct (resolved_flags (uiActions env) (beforeButtons env w)) as (G1 & G2).
  pose proof (resolved_server (uiActions env) (beforeButtons env w)) as G3.
  repeat split.
  - exact G1.
  - exact G2.
  - exact G3.
  - exact F2.
  - exact F1.
Qed.

Lemma exitCheck_cases (env : FrameEnv) (w : World) :
  (shouldStop w = false /\ exitCheck env w = (false, w, [ShouldStop]))
  \/ (shouldStop w = true /\ wantExit w = true
      /\ exitCheck env w =
         (match activeModalDialogs w with [] => true | _ :: _ => false end, w,
          [ShouldStop]))
  \/ (shouldStop w = true /\ wantExit w = false
      /\ exitCheck env w =
         (false,
          set_activeModalDialogs
            (activeModalDialogs w
               ++ (if isConnected (server w) then [disconnectDialog] else [])
               ++ (if configChanged env then [savePrompt] else []))
            (set_globalConfig (grabbedConfig env) (set_wantExit true w)),
          [ShouldStop; Connected (server w)]
            ++ (if isConnected (server w)
                then [UiShowModalDialog disconnectDialog false] else [])
            ++ [SaveIniSettingsToMemory; WindowSize; WindowPosition;
                PromptToSaveIfChanged])).
Proof.
  destruct (shouldStop w) eqn:Hs; [destruct (wantExit w) eqn:Hw|].
  - right; left. auto using exitCheck_waiting.
  - right; right. auto using exitCheck_first.
  - left. auto using exitCheck_idle.
Qed.

Lemma exitCheck_calls (env : FrameEnv) (w : World) :
  exists rest,
    calls (exitCheck env w) = ShouldStop :: rest
    /\ inPhase ExitCheck rest
    /\ count isPropagationCall rest = 0%nat.
Proof.
  destruct (exitCheck_cases env w) as [[_ E]|[(_ & _ & E)|(_ & _ & E)]]; rewrite E.
  - exists []. repeat split. constructor.
  - exists []. repeat split. constructor.
  - eexists. split; [reflexivity|].
    destruct (isConnected (server w)); split; try reflexivity;
      repeat constructor.
Qed.

Lemma closure_calls_in_draw (cbs : list Call) :
  Forall (fun c => isClosureCall c = true) cbs -> inPhase Draw cbs.
Proof.
  unfold inPhase. apply Forall_impl. intros [] H; try discriminate H; reflexivity.
Qed.

Lemma closure_calls_not_propagation (cbs : list Call) :
  Forall (fun c => isClosureCall c = true) cbs ->
  count isPropagationCall cbs = 0%nat.
Proof.
  apply count_zero_of_Forall. intros [] H; try discriminate H; reflexivity.
Qed.

(** The calls of the three consumers and of the reset sit together, right
    after the emptiness test, and nowhere else in the iteration. *)
Lemma loopBody_propagation (devmode : bool) (env : FrameEnv) (w : World) :
  exists pre post,
    calls (loopBody devmode env w)
    = pre ++ tl (propagationCalls (batchAtPropagation env w)) ++ post
    /\ count isPropagationCall pre = 0%nat
    /\ count isPropagationCall post = 0%nat.
Proof.
  pose proof (resolved_calls (uiActions env) (beforeButtons env w)) as Hc.
  destruct (exitCheck_calls env (atExitCheck devmode env w)) as (rest & Ex & _ & Hr).
  rewrite loopBody_explicit, Ex; cbn [calls snd].
  set (cbs := calls (forEach resolve (uiActions env) (beforeButtons env w))) in *.
  exists [GetWindowTitle (server w); SetWindowTitle ("vice: " ++ statusTitle env)%string;
          ProcessEvents; SendUpdates; GetUpdates (server w); NoUpdates].
  eexists. split; [|split].
  - destruct (batchAtPropagation env w); cbn [propagationCalls tl app]; reflexivity.
  - reflexivity.
  - cbn [app]. rewrite !count_cons; cbn [isPropagationCall].
    rewrite count_app, (closure_calls_not_propagation cbs Hc).
    rewrite !count_cons; cbn [isPropagationCall].
    rewrite count_app, count_cons, Hr.
    destruct (logsStats devmode w); reflexivity.
Qed.

(** ** The propagation phase *)

(** C2: whenever the batch is non-empty at the start of the propagation
    phase, the iteration calls [positionConfig.Update], then
    [wmShareUpdates], then [audioProcessUpdates], all with that same
    batch, and calls [controlUpdates.Reset] right after the three; none of
    the four is called anywhere else in the iteration. *)
Theorem C2_consumers_in_order_then_reset
        (devmode : bool) (env : FrameEnv) (w : World) :
  batchAtPropagation env w <> [] ->
  exists pre post,
    calls (loopBody devmode env w)
    = pre ++ [PositionConfigUpdate (batchAtPropagation env w);
              WmShareUpdates (batchAtPropagation env w);
              AudioProcessUpdates (batchAtPropagation env w);
              Reset] ++ post
    /\ count isPropagationCall pre = 0%nat
    /\ count isPropagationCall post = 0%nat.
Proof.
  intros Hb.
  destruct (loopBody_propagation devmode env w) as (pre & post & E & Hpre & Hpost).
  exists pre, post. split; [|split]; trivial.
  rewrite E. destruct (batchAtPropagation env w); [contradiction|reflexivity].
Qed.

(** C3: if the batch is empty at the start of the propagation phase,
    the iteration calls none of [positionConfig.Update], [wmShareUpdates],
    [audioProcessUpdates] and [controlUpdates.Reset]. *)
Theorem C3_empty_batch_no_calls (devmode : bool) (env : FrameEnv) (w : World) :
  batchAtPropagation env w = [] ->
  count isPropagationCall (calls (loopBody devmode env w)) = 0%nat.
Proof.
  intros Hb.
  destruct (loopBody_propagation devmode env w) as (pre & post & E & Hpre & Hpost).
  rewrite E, Hb; cbn [propagationCalls tl app].
  rewrite count_app, Hpre, Hpost. reflexivity.
Qed.

(** C9, as the claim states it, fails: an iteration that finds the batch
    empty does not call [Reset] at all. *)
Lemma C9_no_reset_on_empty_batch :
  batchAtPropagation (frameEnv false [] [] false) (startWorld DisconnectedATCServer) = []
  /\ count isReset
       (calls (loopBody false (frameEnv false [] [] false)
                 (startWorld DisconnectedATCServer))) = 0%nat
  /\ count isReset
       (calls (loopBody false (frameEnv false [] [] false)
                 (startWorld DisconnectedATCServer))) <> 1%nat.
Proof. repeat split. vm_compute. discriminate. Qed.

Lemma count_isReset_le (tr : list Call) :
  (count isReset tr <= count isPropagationCall tr)%nat.
Proof.
  induction tr as [|c tr IH]; [apply le_n|].
  rewrite !count_cons. destruct c; cbn; lia.
Qed.

(** C9, amended: [Reset] is called once in an iteration that finds the
    batch non-empty, after the three consumers have been called with it,
    and not at all in an iteration that finds the batch empty. *)
Theorem C9_reset_once_iff_batch_nonempty
        (devmode : bool) (env : FrameEnv) (w : World) :
  count isReset (calls (loopBody devmode env w))
  = match batchAtPropagation env w with [] => 0%nat | _ :: _ => 1%nat end
  /\ exists pre post,
      calls (loopBody devmode env w)
      = pre ++ match batchAtPropagation env w with
               | [] => []
               | _ :: _ => [PositionConfigUpdate (batchAtPropagation env w);
                            WmShareUpdates (batchAtPropagation env w);
                            AudioProcessUpdates (batchAtPropagation env w);
                            Reset]
               end ++ post
      /\ count isPropagationCall pre = 0%nat
      /\ count isPropagationCall post = 0%nat.
Proof.
  destruct (loopBody_propagation devmode env w) as (pre & post & E & Hpre & Hpost).
  pose proof (count_isReset_le pre) as Lpre.
  pose proof (count_isReset_le post) as Lpost.
  split.
  - rewrite E, !count_app.
    destruct (batchAtPropagation env w); cbn [propagationCalls tl];
      rewrite ?count_cons, ?count_nil; cbn [isReset]; lia.
  - exists pre, post. split; [|split]; trivial.
    rewrite E. destruct (batchAtPropagation env w); reflexivity.
Qed.

Lemma C2_consumers_in_order_then_reset_witness :
  let env := frameEnv false [AircraftAdded "AAL123"] [] false in
  let w := startWorld (ConnectedATCServer 1) in
  batchAtPropagation env w <> []
  /\ exists pre post,
      calls (loopBody false env w)
      = pre ++ [PositionConfigUpdate (batchAtPropagation env w);
                WmShareUpdates (batchAtPropagation env w);
                AudioProcessUpdates (batchAtPropagation env w);
                Reset] ++ post
      /\ count isPropagationCall pre = 0%nat
      /\ count isPropagationCall post = 0%nat.
Proof.
  cbv zeta. split; [vm_compute; discriminate|].
  apply C2_consumers_in_order_then_reset. vm_compute; discriminate.
Defined.

Lemma C3_empty_batch_no_calls_witness :
  let env := frameEnv true [AircraftAdded "AAL123"] [] true in
  let w := startWorld DisconnectedATCServer in
  batchAtPropagation env w = []
  /\ count isPropagationCall (calls (loopBody true env w)) = 0%nat.
Proof.
  cbv zeta. split; [reflexivity|].
  apply C3_empty_batch_no_calls. reflexivity.
Defined.

(** ** The order of the phases *)

(** C1: every iteration makes its calls phase by phase, in the order
    title refresh, input pull, send, receive, propagation, draw (panes
    before the UI overlay), present, telemetry, exit check; and each
    phase works on the state the phases before it left: the propagation
    phase finds the batch with what the receive phase merged into it, the
    exit check reads the stop flag with the close request of this
    iteration's input pull, and what drawing recorded is in the batch the
    iteration ends with. *)
Theorem C1_phases_in_fixed_order (devmode : bool) (env : FrameEnv) (w : World) :
  exists prop draw tele exit,
    calls (loopBody devmode env w)
    = [GetWindowTitle (server w); SetWindowTitle ("vice: " ++ statusTitle env)%string]
        ++ [ProcessEvents]
        ++ [SendUpdates]
        ++ [GetUpdates (server w)]
        ++ (NoUpdates :: prop)
        ++ ([PlatformNewFrame; ImguiNewFrame; WmDrawPanes; GetColorScheme; DrawUI]
              ++ draw)
        ++ [PostRender]
        ++ tele
        ++ (ShouldStop :: exit)
    /\ inPhase Propagation prop
    /\ inPhase Draw draw
    /\ inPhase Telemetry tele
    /\ inPhase ExitCheck exit
    /\ prop = tl (propagationCalls (batchAtPropagation env w))
    /\ batchAtPropagation env w
       = (if isConnected (server w) then controlUpdates w ++ pulled env
          else controlUpdates w)
    /\ tele = (if logsStats devmode w then [LogStats] else [])
    /\ (closeRequested env = true -> uiActions env = [] -> wantExit w = false ->
        In PromptToSaveIfChanged exit)
    /\ controlUpdates (world (loopBody devmode env w))
       = paneChanges env ++ uiChanges env.
Proof.
  pose proof (loopBody_explicit devmode env w) as E.
  pose proof (resolved_calls (uiActions env) (beforeButtons env w)) as Hc.
  destruct (atExitCheck_fields devmode env w) as (Hwe & Hss & _ & _ & Hcu & _ & _).
  set (cbs := calls (forEach resolve (uiActions env) (beforeButtons env w))) in *.
  set (wx := atExitCheck devmode env w) in *.
  destruct (exitCheck_calls env wx) as (rest & Ex & Hrest & _).
  exists (tl (propagationCalls (batchAtPropagation env w))),
    (cbs ++ [ImguiRender; DisplaySize; FramebufferSize; RenderedDrawData; RenderImgui]),
    (if logsStats devmode w then [LogStats] else []), rest.
  repeat split.
  - rewrite E, Ex; cbn [calls snd app]. rewrite <- app_assoc.
    destruct (batchAtPropagation env w); reflexivity.
  - destruct (batchAtPropagation env w); repeat constructor.
  - apply Forall_app. split; [apply closure_calls_in_draw, Hc|repeat constructor].
  - destruct (logsStats devmode w); repeat constructor.
  - exact Hrest.
  - apply batchAtPropagation_eq.
  - intros Hclose Hacts Hw. subst cbs. rewrite Hacts in Hwe, Hss.
    cbn in Hwe, Hss. rewrite andb_true_r in Hwe, Hss.
    rewrite Hclose, orb_true_r in Hss. rewrite Hw in Hwe.
    rewrite (exitCheck_first env wx Hss Hwe) in Ex; cbn [calls snd app] in Ex.
    injection Ex as <-. right. apply in_or_app. right. cbn. auto.
  - rewrite E; cbn [world fst snd].
    destruct (exitCheck_cases env wx) as [[_ X]|[(_ & _ & X)|(_ & _ & X)]];
      rewrite X; cbn [world fst snd]; exact Hcu.
Qed.

Lemma C1_phases_in_fixed_order_witness :
  In PromptToSaveIfChanged
     (calls (loopBody false (frameEnv true [] [] false)
               (startWorld DisconnectedATCServer))).
Proof.
  destruct (C1_phases_in_fixed_order false (frameEnv true [] [] false)
              (startWorld DisconnectedATCServer))
    as (prop & draw & tele & exit & E & _ & _ & _ & _ & _ & _ & _ & V & _).
  rewrite E. repeat (apply in_or_app; right). right.
  apply V; reflexivity.
Defined.

(** ** The exit check and the closures *)

Lemma loopBody_value_world (devmode : bool) (env : FrameEnv) (w : World) :
  value (loopBody devmode env w) = value (exitCheck env (atExitCheck devmode env w))
  /\ world (loopBody devmode env w) = world (exitCheck env (atExitCheck devmode env w)).
Proof. rewrite loopBody_explicit. split; reflexivity. Qed.

(** Calls that only the closures and the exit check make are counted
    there. *)
Lemma loopBody_count (p : Call -> bool) (devmode : bool) (env : FrameEnv) (w : World) :
  (forall c, isClosureCall c = false -> phaseOf c <> ExitCheck -> p c = false) ->
  count p (calls (loopBody devmode env w))
  = (count p (calls (forEach resolve (uiActions env) (beforeButtons env w)))
     + count p (calls (exitCheck env (atExitCheck devmode env w))))%nat.
Proof.
  intros Hp.
  assert (Z0 : forall l, Forall (fun c => isClosureCall c = false
                                          /\ phaseOf c <> ExitCheck) l ->
                         count p l = 0%nat).
  { intros l H. induction H as [|c l [H1 H2] _ IH]; [reflexivity|].
    rewrite count_cons, IH, (Hp c H1 H2). reflexivity. }
  rewrite loopBody_explicit; cbn [calls snd].
  rewrite !count_app.
  rewrite (Z0 [GetWindowTitle (server w); _; ProcessEvents; SendUpdates; GetUpdates _]),
    (Z0 (propagationCalls _)), (Z0 [PlatformNewFrame; _; _; _; _]),
    (Z0 [ImguiRender; _; _; _; _; _]), (Z0 (if logsStats devmode w then _ else _)).
  - reflexivity.
  - destruct (logsStats devmode w); repeat constructor; discriminate.
  - repeat constructor; discriminate.
  - repeat constructor; discriminate.
  - destruct (batchAtPropagation env w); repeat constructor; discriminate.
  - repeat constructor; discriminate.
Qed.

Lemma closure_counts (cbs : list Call) :
  Forall (fun c => isClosureCall c = true) cbs ->
  count isShowDialog cbs = 0%nat /\ count isPromptToSave cbs = 0%nat.
Proof.
  intros H. split; apply (count_zero_of_Forall _ isClosureCall); trivial;
    intros [] Hc; try discriminate Hc; reflexivity.
Qed.

Lemma exitCheck_counts (env : FrameEnv) (w : World) :
  count isCancelShouldStop (calls (exitCheck env w)) = 0%nat
  /\ count isDisconnect (calls (exitCheck env w)) = 0%nat
  /\ count isPromptToSave (calls (exitCheck env w))
     = (if shouldStop w && negb (wantExit w) then 1 else 0)%nat
  /\ count isShowDialog (calls (exitCheck env w))
     = (if shouldStop w && negb (wantExit w) && isConnected (server w)
        then 1 else 0)%nat.
Proof.
  destruct (exitCheck_cases env w) as [[H1 E]|[(H1 & H2 & E)|(H1 & H2 & E)]];
    rewrite E, H1, ?H2; cbn [calls snd andb negb]; repeat split;
    destruct (isConnected (server w)); reflexivity.
Qed.

(** What one iteration calls of the dialog, the persistence path and the
    closures. *)
Lemma loopBody_counts (devmode : bool) (env : FrameEnv) (w : World) :
  let cbs := calls (forEach resolve (uiActions env) (beforeButtons env w)) in
  count isCancelShouldStop (calls (loopBody devmode env w))
  = count isCancelShouldStop cbs
  /\ count isDisconnect (calls (loopBody devmode env w)) = count isDisconnect cbs
  /\ count isPromptToSave (calls (loopBody devmode env w))
     = (if closeFirstObserved devmode env w then 1 else 0)%nat
  /\ count isShowDialog (calls (loopBody devmode env w))
     = (if closeFirstObserved devmode env w
           && isConnected (server (atExitCheck devmode env w))
        then 1 else 0)%nat.
Proof.
  cbv zeta.
  destruct (exitCheck_counts env (atExitCheck devmode env w)) as (X1 & X2 & X3 & X4).
  destruct (closure_counts _ (resolved_calls (uiActions env) (beforeButtons env w)))
    as (K1 & K2).
  unfold closeFirstObserved.
  rewrite !loopBody_count, X1, X2, X3, X4, K1, K2.
  - repeat split; lia.
  - intros [] H1 H2; try reflexivity; try discriminate H1; exfalso; apply H2; reflexivity.
  - intros [] H1 H2; try reflexivity; try discriminate H1; exfalso; apply H2; reflexivity.
  - intros [] H1 H2; try reflexivity; try discriminate H1; exfalso; apply H2; reflexivity.
  - intros [] H1 H2; try reflexivity; try discriminate H1; exfalso; apply H2; reflexivity.
Qed.

(** C10: on the iteration that first observes a close request, whether
    the session is connected or not and before any dialog is resolved,
    the loop stores the current UI settings, window size and window
    position in the global configuration and calls
    [PromptToSaveIfChanged]; a later iteration in which the close attempt
    is cancelled leaves the configuration as stored and takes nothing
    back. *)
Theorem C10_first_observation_grabs_and_prompts
        (devmode : bool) (env : FrameEnv) (w : World) :
  closeFirstObserved devmode env w = true ->
  value (loopBody devmode env w) = false
  /\ wantExit (world (loopBody devmode env w)) = true
  /\ globalConfig (world (loopBody devmode env w)) = grabbedConfig env
  /\ count isPromptToSave (calls (loopBody devmode env w)) = 1%nat
  /\ forall env2,
      (1 <= count isCancelShouldStop
              (calls (loopBody devmode env2 (world (loopBody devmode env w)))))%nat ->
      wantExit (world (loopBody devmode env2 (world (loopBody devmode env w)))) = false
      /\ globalConfig (world (loopBody devmode env2 (world (loopBody devmode env w))))
         = grabbedConfig env
      /\ count isPromptToSave
           (calls (loopBody devmode env2 (world (loopBody devmode env w)))) = 0%nat.
Proof.
  intros H.
  destruct (loopBody_value_world devmode env w) as (Hv & Hw).
  destruct (loopBody_counts devmode env w) as (_ & _ & Hp & _).
  rewrite Hv, Hw, Hp, H.
  unfold closeFirstObserved in H. apply andb_true_iff in H as [Hs Hn].
  apply negb_true_iff in Hn.
  rewrite (exitCheck_first env _ Hs Hn); cbn [value world fst snd].
  do 4 (split; [reflexivity|]).
  intros env2 Hc.
  set (w1 := set_activeModalDialogs _ _) in *.
  destruct (loopBody_value_world devmode env2 w1) as (_ & Hw2).
  destruct (loopBody_counts devmode env2 w1) as (Hc2 & _ & Hp2 & _).
  destruct (atExitCheck_fields devmode env2 w1) as (F1 & F2 & _ & F4 & _).
  rewrite Hc2 in Hc.
  assert (Hz : (count isCancelShouldStop
                  (calls (forEach resolve (uiActions env2) (beforeButtons env2 w1)))
                =? 0)%nat = false) by (apply Nat.eqb_neq; lia).
  rewrite Hz, andb_false_r in F1, F2.
  rewrite Hw2, Hp2. unfold closeFirstObserved. rewrite F2.
  rewrite (exitCheck_idle env2 _ F2); cbn [world fst snd].
  rewrite F1, F4. repeat split.
Qed.

Lemma C10_first_observation_grabs_and_prompts_witness :
  let w := startWorld (ConnectedATCServer 1) in
  let env := frameEnv true [] [] true in
  let env2 := frameEnv false [] [Resolve 0 false] false in
  closeFirstObserved false env w = true
  /\ globalConfig (world (loopBody false env w)) = grabbedConfig env
  /\ count isPromptToSave (calls (loopBody false env w)) = 1%nat
  /\ globalConfig (world (loopBody false env2 (world (loopBody false env w))))
     = grabbedConfig env.
Proof.
  cbv zeta.
  pose proof (C10_first_observation_grabs_and_prompts false
                (frameEnv true [] [] true) (startWorld (ConnectedATCServer 1))
                eq_refl) as (_ & _ & Hg & Hp & Hlater).
  split; [reflexivity|]. split; [exact Hg|]. split; [exact Hp|].
  apply (Hlater (frameEnv false [] [Resolve 0 false] false)).
  vm_compute. apply le_n.
Defined.

(** ** One dialog per close attempt *)

Lemma loopBody_dialogBudget (devmode : bool) (env : FrameEnv) (w : World) :
  (count isShowDialog (calls (loopBody devmode env w))
   + dialogBudget (world (loopBody devmode env w))
   <= dialogBudget w + count isCancelShouldStop (calls (loopBody devmode env w)))%nat.
Proof.
  destruct (loopBody_value_world devmode env w) as (_ & Hw).
  destruct (loopBody_counts devmode env w) as (Hc & _ & _ & Hd).
  destruct (atExitCheck_fields devmode env w) as (F1 & F2 & _).
  remember (count isCancelShouldStop
              (calls (forEach resolve (uiActions env) (beforeButtons env w)))) as c
    eqn:Ec. clear Ec.
  rewrite Hw, Hc, Hd. unfold closeFirstObserved, dialogBudget.
  remember (atExitCheck devmode env w) as wx eqn:Ex. clear Ex.
  destruct (exitCheck_cases env wx) as [[H1 E]|[(H1 & H2 & E)|(H1 & H2 & E)]];
    rewrite E; cbn [world fst snd set_activeModalDialogs
                      set_globalConfig set_wantExit wantExit];
    rewrite ?H1, ?H2; cbn [andb negb].
  - rewrite F1. destruct (wantExit w), c; cbn; lia.
  - cbn. lia.
  - rewrite H1 in F2. rewrite H2 in F1.
    destruct (wantExit w), c, (isConnected (server wx)); cbn in *;
      try discriminate; rewrite ?andb_false_r in *; try discriminate; lia.
Qed.

Lemma run_cons (devmode : bool) (env : FrameEnv) (envs : list FrameEnv) (w : World) :
  run devmode (env :: envs) w =
  if value (loopBody devmode env w)
  then (true, world (loopBody devmode env w), [calls (loopBody devmode env w)])
  else (exited (run devmode envs (world (loopBody devmode env w))),
        finalWorld (run devmode envs (world (loopBody devmode env w))),
        calls (loopBody devmode env w)
          :: iterations (run devmode envs (world (loopBody devmode env w)))).
Proof.
  cbn [run]. destruct (loopBody devmode env w) as [[[|] w'] tr]; cbn; [reflexivity|].
  destruct (run devmode envs w') as [[b wf] trs]; reflexivity.
Qed.

Lemma allCalls_run_cons (devmode : bool) (env : FrameEnv) (envs : list FrameEnv)
      (w : World) :
  allCalls (run devmode (env :: envs) w)
  = calls (loopBody devmode env w)
      ++ (if value (loopBody devmode env w) then []
          else allCalls (run devmode envs (world (loopBody devmode env w)))).
Proof.
  rewrite run_cons. destruct (value (loopBody devmode env w)); unfold allCalls;
    cbn [snd List.concat]; reflexivity.
Qed.

Lemma finalWorld_run_cons (devmode : bool) (env : FrameEnv) (envs : list FrameEnv)
      (w : World) :
  finalWorld (run devmode (env :: envs) w)
  = if value (loopBody devmode env w) then world (loopBody devmode env w)
    else finalWorld (run devmode envs (world (loopBody devmode env w))).
Proof.
  rewrite run_cons. destruct (value (loopBody devmode env w)); reflexivity.
Qed.

Lemma exited_run_cons (devmode : bool) (env : FrameEnv) (envs : list FrameEnv)
      (w : World) :
  exited (run devmode (env :: envs) w)
  = if value (loopBody devmode env w) then true
    else exited (run devmode envs (world (loopBody devmode env w))).
Proof.
  rewrite run_cons. destruct (value (loopBody devmode env w)); reflexivity.
Qed.

Lemma iterations_run_cons (devmode : bool) (env : FrameEnv) (envs : list FrameEnv)
      (w : World) :
  iterations (run devmode (env :: envs) w)
  = calls (loopBody devmode env w)
      :: (if value (loopBody devmode env w) then []
          else iterations (run devmode envs (world (loopBody devmode env w)))).
Proof.
  rewrite run_cons. destruct (value (loopBody devmode env w)); reflexivity.
Qed.

Lemma run_dialogBudget (devmode : bool) (envs : list FrameEnv) (w : World) :
  (count isShowDialog (allCalls (run devmode envs w))
   + dialogBudget (finalWorld (run devmode envs w))
   <= dialogBudget w + count isCancelShouldStop (allCalls (run devmode envs w)))%nat.
Proof.
  revert w. induction envs as [|env envs IH]; intros w; [cbn; lia|].
  rewrite allCalls_run_cons, finalWorld_run_cons.
  pose proof (loopBody_dialogBudget devmode env w) as H.
  destruct (value (loopBody devmode env w)).
  - rewrite app_nil_r. exact H.
  - specialize (IH (world (loopBody devmode env w))).
    rewrite !count_app. lia.
Qed.

(** C7: the disconnect dialog is created at most once per close attempt.
    Over any run of the loop, the dialogs created are at most one for the
    attempt that may start while [wantExit] is still false, and one more
    for every time the [notok] closure has cancelled an attempt; in
    particular, from a state in which an attempt is under way, iterations
    create no dialog as long as the attempt is not cancelled. *)
Theorem C7_dialog_once_per_attempt (devmode : bool) (envs : list FrameEnv) (w : World) :
  (count isShowDialog (allCalls (run devmode envs w))
   <= dialogBudget w + count isCancelShouldStop (allCalls (run devmode envs w)))%nat
  /\ (wantExit w = true ->
      count isCancelShouldStop (allCalls (run devmode envs w)) = 0%nat ->
      count isShowDialog (allCalls (run devmode envs w)) = 0%nat).
Proof.
  pose proof (run_dialogBudget devmode envs w) as H. split; [lia|].
  intros Hw Hc. unfold dialogBudget in H at 2. rewrite Hw, Hc in H. lia.
Qed.

Lemma C7_dialog_once_per_attempt_witness :
  let pending := world (loopBody false (frameEnv true [] [] false)
                          (startWorld (ConnectedATCServer 1))) in
  let envs := [frameEnv true [] [] false; frameEnv false [] [] false;
               frameEnv true [AircraftAdded "AAL123"] [] false] in
  wantExit pending = true
  /\ count isCancelShouldStop (allCalls (run false envs pending)) = 0%nat
  /\ count isShowDialog (allCalls (run false envs pending)) = 0%nat.
Proof.
  cbv zeta. split; [reflexivity|]. split; [reflexivity|].
  apply C7_dialog_once_per_attempt; reflexivity.
Defined.

(** ** While the confirmation is pending *)

(** C8, as the claim states it, fails: with the confirmation dialog open
    and unresolved, an iteration still flushes outgoing messages, pulls
    network updates and hands the batch to the three consumers. *)
Lemma C8_pending_iteration_pulls_and_propagates :
  let pending := world (loopBody false (frameEnv true [] [] false)
                          (startWorld (ConnectedATCServer 1))) in
  let r := loopBody false (frameEnv false [AircraftAdded "AAL123"] [] false) pending in
  wantExit pending = true
  /\ shouldStop pending = true
  /\ activeModalDialogs pending = [disconnectDialog]
  /\ activeModalDialogs (world r) = [disconnectDialog]
  /\ In SendUpdates (calls r)
  /\ In (GetUpdates (ConnectedATCServer 1)) (calls r)
  /\ In (PositionConfigUpdate [AircraftAdded "AAL123"]) (calls r)
  /\ In (WmShareUpdates [AircraftAdded "AAL123"]) (calls r)
  /\ In (AudioProcessUpdates [AircraftAdded "AAL123"]) (calls r).
Proof.
  vm_compute. repeat split; repeat (first [left; reflexivity | right]).
Qed.

(** An iteration that finds an attempt under way, a dialog open and no
    button pressed. *)
Lemma loopBody_pending (devmode : bool) (env : FrameEnv) (w : World) :
  wantExit w = true ->
  shouldStop w = true ->
  activeModalDialogs w <> [] ->
  uiActions env = [] ->
  loopBody devmode env w =
  (false,
   set_frameIndex (wrap64 (frameIndex w + 1)) (beforeButtons env w),
   [GetWindowTitle (server w); SetWindowTitle ("vice: " ++ statusTitle env)%string;
    ProcessEvents; SendUpdates; GetUpdates (server w)]
     ++ propagationCalls (batchAtPropagation env w)
     ++ [PlatformNewFrame; ImguiNewFrame; WmDrawPanes; GetColorScheme; DrawUI;
         ImguiRender; DisplaySize; FramebufferSize; RenderedDrawData; RenderImgui;
         PostRender]
     ++ (if logsStats devmode w then [LogStats] else [])
     ++ [ShouldStop]).
Proof.
  intros Hw Hs Hd Ha.
  rewrite loopBody_explicit, atExitCheck_eq, Ha; cbn [forEach ret world calls fst snd].
  rewrite exitCheck_waiting.
  - cbn [activeModalDialogs set_frameIndex beforeButtons set_controlUpdates
           set_redraws set_shouldStop value world calls fst snd app].
    destruct (activeModalDialogs w); [contradiction|reflexivity].
  - cbn. rewrite Hs. reflexivity.
  - cbn. exact Hw.
Qed.

(** C8, amended: while the confirmation is pending and no button is
    pressed, an iteration runs every phase as usual (title refresh, input
    pull, send, receive, propagation of a non-empty batch, draw, present,
    telemetry); only its exit check does nothing beyond reading the stop
    flag: it opens no dialog, calls no persistence, does not break, and
    leaves the attempt pending. *)
Theorem C8_pending_iteration_runs_every_phase
        (devmode : bool) (env : FrameEnv) (w : World) :
  wantExit w = true ->
  shouldStop w = true ->
  activeModalDialogs w <> [] ->
  uiActions env = [] ->
  loopBody devmode env w =
  (false,
   set_frameIndex (wrap64 (frameIndex w + 1)) (beforeButtons env w),
   [GetWindowTitle (server w); SetWindowTitle ("vice: " ++ statusTitle env)%string;
    ProcessEvents; SendUpdates; GetUpdates (server w)]
     ++ propagationCalls (batchAtPropagation env w)
     ++ [PlatformNewFrame; ImguiNewFrame; WmDrawPanes; GetColorScheme; DrawUI;
         ImguiRender; DisplaySize; FramebufferSize; RenderedDrawData; RenderImgui;
         PostRender]
     ++ (if logsStats devmode w then [LogStats] else [])
     ++ [ShouldStop])
  /\ wantExit (world (loopBody devmode env w)) = true
  /\ shouldStop (world (loopBody devmode env w)) = true
  /\ activeModalDialogs (world (loopBody devmode env w)) = activeModalDialogs w
  /\ server (world (loopBody devmode env w)) = server w
  /\ globalConfig (world (loopBody devmode env w)) = globalConfig w.
Proof.
  intros Hw Hs Hd Ha.
  rewrite (loopBody_pending devmode env w Hw Hs Hd Ha); cbn [world fst snd].
  split; [reflexivity|]. cbn. rewrite Hs, Hw. repeat split.
Qed.

Lemma C8_pending_iteration_runs_every_phase_witness :
  let pending := world (loopBody false (frameEnv true [] [] false)
                          (startWorld (ConnectedATCServer 1))) in
  let env := frameEnv false [AircraftAdded "AAL123"] [] false in
  wantExit (world (loopBody true env pending)) = true
  /\ activeModalDialogs (world (loopBody true env pending)) = [disconnectDialog].
Proof.
  cbv zeta.
  destruct (C8_pending_iteration_runs_every_phase true
              (frameEnv false [AircraftAdded "AAL123"] [] false)
              (world (loopBody false (frameEnv true [] [] false)
                        (startWorld (ConnectedATCServer 1)))))
    as (_ & H1 & _ & H2 & _); try reflexivity; [vm_compute; discriminate|].
  split; [exact H1|exact H2].
Defined.

(** ** Pressing the buttons *)




Lemma press_no (i : nat) (w : World) :
  nth_error (activeModalDialogs w) i = Some disconnectDialog ->
  forEach resolve [Resolve i false] w
  = (tt,
     set_wantExit false
       (set_shouldStop false
          (set_activeModalDialogs (removeAt i (activeModalDialogs w)) w)),
     [CancelShouldStop]).
Proof.
  intros H. destruct w as [s cu ss ds g r f we]. cbn in H.
  cbn [forEach]. unfold resolve, bind, gets. cbn [activeModalDialogs].
  rewrite H. reflexivity.
Qed.

(** An iteration, given what pressing the buttons did. *)
Lemma loopBody_after_buttons (devmode : bool) (env : FrameEnv) (w w3 : World)
      (cbs : list Call) :
  forEach resolve (uiActions env) (beforeButtons env w) = (tt, w3, cbs) ->
  value (loopBody devmode env w)
  = value (exitCheck env (set_frameIndex (wrap64 (frameIndex w + 1)) w3))
  /\ world (loopBody devmode env w)
     = world (exitCheck env (set_frameIndex (wrap64 (frameIndex w + 1)) w3))
  /\ count isCancelShouldStop (calls (loopBody devmode env w))
     = count isCancelShouldStop cbs
  /\ count isDisconnect (calls (loopBody devmode env w)) = count isDisconnect cbs
  /\ count isPromptToSave (calls (loopBody devmode env w))
     = (if shouldStop w3 && negb (wantExit w3) then 1 else 0)%nat
  /\ count isShowDialog (calls (loopBody devmode env w))
     = (if shouldStop w3 && negb (wantExit w3) && isConnected (server w3)
        then 1 else 0)%nat
  /\ (forall c, In c cbs -> In c (calls (loopBody devmode env w))).
Proof.
  intros H.
  destruct (loopBody_value_world devmode env w) as (Hv & Hw).
  destruct (loopBody_counts devmode env w) as (C1 & C2 & C3 & C4).
  pose proof (atExitCheck_eq devmode env w) as Ex.
  unfold closeFirstObserved in C3, C4.
  rewrite H in *; cbn [world calls fst snd] in *.
  rewrite Hv, Hw, C1, C2, C3, C4, Ex. repeat split.
  intros c Hc. rewrite loopBody_explicit, H; cbn [calls snd].
  apply in_or_app; right. apply in_or_app; right. apply in_or_app; right.
  apply in_or_app; left. exact Hc.
Qed.

(** ** Cancelling the close attempt *)

(** C5, as the claim states it, fails: by the time the dialog is
    answered "no", the iteration that first observed the close request
    has already overwritten the stored settings and window geometry and
    has called the persistence path. *)
Lemma C5_cancelled_attempt_has_persisted :
  let w := startWorld (ConnectedATCServer 1) in
  let r := run false [frameEnv true [] [] false;
                      frameEnv false [] [Resolve 0 false] false] w in
  exited r = false
  /\ In CancelShouldStop (allCalls r)
  /\ wantExit (finalWorld r) = false
  /\ count isPromptToSave (allCalls r) = 1%nat
  /\ globalConfig (finalWorld r) <> globalConfig w.
Proof.
  vm_compute. repeat split; try discriminate.
  repeat (first [left; reflexivity | right]).
Qed.

(** C5, amended: when the confirmation dialog is answered "no", the
    closure calls [platform.CancelShouldStop] and clears [wantExit]; the
    iteration ends with the stop flag and [wantExit] both cleared, the
    session untouched, and the loop running; that iteration calls no
    persistence and leaves the global configuration as it finds it. *)
Theorem C5_no_cancels_and_resumes
        (devmode : bool) (env : FrameEnv) (w : World) (i : nat) :
  nth_error (activeModalDialogs w) i = Some disconnectDialog ->
  uiActions env = [Resolve i false] ->
  value (loopBody devmode env w) = false
  /\ count isCancelShouldStop (calls (loopBody devmode env w)) = 1%nat
  /\ wantExit (world (loopBody devmode env w)) = false
  /\ shouldStop (world (loopBody devmode env w)) = false
  /\ server (world (loopBody devmode env w)) = server w
  /\ activeModalDialogs (world (loopBody devmode env w))
     = removeAt i (activeModalDialogs w)
  /\ globalConfig (world (loopBody devmode env w)) = globalConfig w
  /\ count isPromptToSave (calls (loopBody devmode env w)) = 0%nat
  /\ count isDisconnect (calls (loopBody devmode env w)) = 0%nat
  /\ count isShowDialog (calls (loopBody devmode env w)) = 0%nat.
Proof.
  intros Hd Ha.
  assert (Hb : nth_error (activeModalDialogs (beforeButtons env w)) i
               = Some disconnectDialog) by exact Hd.
  pose proof (press_no i (beforeButtons env w) Hb) as Hp. rewrite <- Ha in Hp.
  destruct (loopBody_after_buttons devmode env w _ _ Hp)
    as (Hv & Hw & C1 & C2 & C3 & C4 & _).
  rewrite Hv, Hw, C1, C2, C3, C4.
  rewrite exitCheck_idle by reflexivity.
  repeat split.
Qed.

Lemma C5_no_cancels_and_resumes_witness :
  let pending := world (loopBody false (frameEnv true [] [] true)
                          (startWorld (ConnectedATCServer 1))) in
  let env := frameEnv false [] [Resolve 0 false] false in
  nth_error (activeModalDialogs pending) 0 = Some disconnectDialog
  /\ wantExit (world (loopBody false env pending)) = false
  /\ shouldStop (world (loopBody false env pending)) = false
  /\ server (world (loopBody false env pending)) = ConnectedATCServer 1
  /\ count isPromptToSave (calls (loopBody false env pending)) = 0%nat.
Proof.
  cbv zeta. split; [reflexivity|].
  destruct (C5_no_cancels_and_resumes false
              (frameEnv false [] [Resolve 0 false] false)
              (world (loopBody false (frameEnv true [] [] true)
                        (startWorld (ConnectedATCServer 1))))
              0%nat eq_refl eq_refl)
    as (_ & _ & H1 & H2 & H3 & _ & _ & H4 & _).
  split; [exact H1|]. split; [exact H2|]. split; [exact H3|exact H4].
Defined.

(** ** Leaving the loop *)







(** ** Further properties of the loop *)

Lemma exitCheck_keeps (env : FrameEnv) (w : World) :
  frameIndex (world (exitCheck env w)) = frameIndex w
  /\ redraws (world (exitCheck env w)) = redraws w
  /\ controlUpdates (world (exitCheck env w)) = controlUpdates w
  /\ server (world (exitCheck env w)) = server w
  /\ shouldStop (world (exitCheck env w)) = shouldStop w.
Proof.
  destruct (exitCheck_cases env w) as [[_ E]|[(_ & _ & E)|(_ & _ & E)]];
    rewrite E; repeat split.
Qed.

Lemma exitCheck_no_LogStats (env : FrameEnv) (w : World) :
  count isLogStats (calls (exitCheck env w)) = 0%nat.
Proof.
  destruct (exitCheck_cases env w) as [[_ E]|[(_ & _ & E)|(_ & _ & E)]];
    rewrite E; try reflexivity.
  cbn [calls snd]. destruct (isConnected (server w)); reflexivity.
Qed.

Lemma rem_3600_600 (f : Z) : Z.rem f 3600 = 0 -> Z.rem f 600 = 0.
Proof.
  intros H. apply Z.rem_divide in H; [|discriminate].
  apply Z.rem_divide; [discriminate|].
  apply Z.divide_trans with 3600; [exists 6; reflexivity|exact H].
Qed.

(** X1: an iteration logs the statistics exactly when the frame index is
    a multiple of 600 in developer mode, of 3600 otherwise, and then
    once: in developer mode the test on 3600 adds nothing to the test on
    600. *)
Theorem X1_stats_logged_on_period (devmode : bool) (env : FrameEnv) (w : World) :
  count isLogStats (calls (loopBody devmode env w))
  = if Z.rem (frameIndex w) (if devmode then 600 else 3600) =? 0
    then 1%nat else 0%nat.
Proof.
  rewrite loopBody_explicit; cbn [calls snd].
  rewrite !count_app, exitCheck_no_LogStats.
  rewrite (count_zero_of_Forall isLogStats isClosureCall
             (calls (forEach resolve (uiActions env) (beforeButtons env w))));
    [|intros [] H; try discriminate H; reflexivity|apply resolved_calls].
  assert (P : count isLogStats (propagationCalls (batchAtPropagation env w)) = 0%nat)
    by (destruct (batchAtPropagation env w); reflexivity).
  rewrite P. cbn [count filter isLogStats List.length Nat.add].
  assert (L : logsStats devmode w
              = (Z.rem (frameIndex w) (if devmode then 600 else 3600) =? 0)).
  { unfold logsStats. destruct devmode; [|reflexivity]. cbn [andb].
    destruct (Z.rem (frameIndex w) 600 =? 0) eqn:E6; [reflexivity|].
    cbn [orb]. apply Z.eqb_neq. intros H. apply Z.eqb_neq in E6.
    apply E6, rem_3600_600, H. }
  rewrite L. destruct (Z.rem _ _ =? 0); reflexivity.
Qed.

Lemma wrap64_id (z : Z) : inInt z -> wrap64 z = z.
Proof.
  unfold inInt, wrap64. intros H. rewrite Z.mod_small; lia.
Qed.

Lemma loopBody_counters (devmode : bool) (env : FrameEnv) (w : World) :
  frameIndex (world (loopBody devmode env w)) = wrap64 (frameIndex w + 1)
  /\ redraws (world (loopBody devmode env w)) = wrap64 (redraws w + 1).
Proof.
  destruct (loopBody_value_world devmode env w) as (_ & Hw). rewrite Hw.
  destruct (exitCheck_keeps env (atExitCheck devmode env w)) as (K1 & K2 & _).
  rewrite K1, K2, atExitCheck_eq.
  destruct (resolved_frame (uiActions env) (beforeButtons env w)) as (_ & _ & F3 & _).
  split; [reflexivity|]. cbn [redraws set_frameIndex]. rewrite F3. reflexivity.
Qed.

(** X2: [frameIndex] and [stats.redraws] count the iterations: as long
    as neither overflows, a run leaves each advanced by the number of
    iterations that ran, whether or not the last one broke out. *)
Theorem X2_counters_count_iterations
        (devmode : bool) (envs : list FrameEnv) (w : World) :
  inInt (frameIndex w) ->
  inInt (redraws w) ->
  inInt (frameIndex w + Z.of_nat (List.length envs)) ->
  inInt (redraws w + Z.of_nat (List.length envs)) ->
  frameIndex (finalWorld (run devmode envs w))
  = frameIndex w + Z.of_nat (List.length (iterations (run devmode envs w)))
  /\ redraws (finalWorld (run devmode envs w))
     = redraws w + Z.of_nat (List.length (iterations (run devmode envs w))).
Proof.
  revert w. induction envs as [|env envs IH]; intros w Hf Hr Hfn Hrn.
  - cbn. split; lia.
  - rewrite finalWorld_run_cons, iterations_run_cons.
    destruct (loopBody_counters devmode env w) as (Cf & Cr).
    cbn [List.length] in Hfn, Hrn. unfold inInt in *.
    assert (Wf : wrap64 (frameIndex w + 1) = frameIndex w + 1)
      by (apply wrap64_id; unfold inInt; lia).
    assert (Wr : wrap64 (redraws w + 1) = redraws w + 1)
      by (apply wrap64_id; unfold inInt; lia).
    rewrite Wf in Cf. rewrite Wr in Cr.
    destruct (value (loopBody devmode env w)).
    + cbn [List.length]. rewrite Cf, Cr. split; lia.
    + destruct (IH (world (loopBody devmode env w))) as (I1 & I2);
        rewrite ?Cf, ?Cr; try lia.
      cbn [List.length]. rewrite I1, I2, Cf, Cr. split; lia.
Qed.

Lemma X2_counters_count_iterations_witness :
  let envs := [frameEnv false [] [] false; frameEnv true [] [] false;
               frameEnv false [] [] false; frameEnv false [] [] false] in
  let w := startWorld DisconnectedATCServer in
  frameIndex (finalWorld (run false envs w)) = 3
  /\ redraws (finalWorld (run false envs w)) = 3.
Proof.
  cbv zeta.
  assert (I0 : inInt 0) by (unfold inInt; cbn; lia).
  assert (I4 : inInt (0 + Z.of_nat 4)) by (unfold inInt; cbn; lia).
  destruct (X2_counters_count_iterations false
              [frameEnv false [] [] false; frameEnv true [] [] false;
               frameEnv false [] [] false; frameEnv false [] [] false]
              (startWorld DisconnectedATCServer) I0 I0 I4 I4) as (H1 & H2).
  split; [exact H1|exact H2].
Defined.

Lemma loopBody_no_break (devmode : bool) (env : FrameEnv) (w : World) :
  wantExit w = false -> value (loopBody devmode env w) = false.
Proof.
  intros Hw. destruct (loopBody_value_world devmode env w) as (Hv & _).
  destruct (atExitCheck_fields devmode env w) as (F1 & _).
  rewrite Hw in F1; cbn [andb] in F1. rewrite Hv.
  destruct (exitCheck_cases env (atExitCheck devmode env w))
    as [[_ E]|[(_ & H2 & E)|(_ & _ & E)]]; rewrite E; try reflexivity.
  rewrite F1 in H2. discriminate H2.
Qed.

Lemma run_exit_two (devmode : bool) (envs : list FrameEnv) (w : World) :
  wantExit w = false ->
  exited (run devmode envs w) = true ->
  (2 <= List.length (iterations (run devmode envs w)))%nat.
Proof.
  intros Hw. destruct envs as [|e1 [|e2 envs]].
  - cbn. discriminate.
  - rewrite exited_run_cons, (loopBody_no_break devmode e1 w Hw). cbn. discriminate.
  - intros _. rewrite !iterations_run_cons, (loopBody_no_break devmode e1 w Hw).
    cbn [List.length]. lia.
Qed.

(** X3: the loop cannot break in the iteration that first sees the close
    request: an iteration that starts with [wantExit] false never
    breaks, so a run that starts so and ends in [break] has gone through
    at least two iterations. *)
Theorem X3_no_break_on_first_sight
        (devmode : bool) (envs : list FrameEnv) (w : World) :
  wantExit w = false ->
  (forall env, value (loopBody devmode env w) = false)
  /\ (exited (run devmode envs w) = true ->
      (2 <= List.length (iterations (run devmode envs w)))%nat).
Proof.
  intros Hw. split.
  - intros env. apply loopBody_no_break, Hw.
  - apply run_exit_two, Hw.
Qed.

Lemma X3_no_break_on_first_sight_witness :
  let envs := [frameEnv true [] [] false; frameEnv false [] [] false] in
  let w := startWorld DisconnectedATCServer in
  value (loopBody false (frameEnv true [] [] false) w) = false
  /\ exited (run false envs w) = true
  /\ (2 <= List.length (iterations (run false envs w)))%nat.
Proof.
  cbv zeta.
  destruct (X3_no_break_on_first_sight false
              [frameEnv true [] [] false; frameEnv false [] [] false]
              (startWorld DisconnectedATCServer) eq_refl) as (H1 & H2).
  split; [apply H1|]. split; [reflexivity|]. apply H2. reflexivity.
Defined.

(** X4: the iteration that breaks out of the loop finds the stop flag
    and [wantExit] set and no modal dialog open, and does nothing else
    at its exit check: it opens no dialog, calls no persistence, and
    leaves the global configuration and the session as they are. *)
Theorem X4_break_iteration_is_quiet (devmode : bool) (env : FrameEnv) (w : World) :
  value (loopBody devmode env w) = true ->
  shouldStop (world (loopBody devmode env w)) = true
  /\ wantExit (world (loopBody devmode env w)) = true
  /\ activeModalDialogs (world (loopBody devmode env w)) = []
  /\ globalConfig (world (loopBody devmode env w)) = globalConfig w
  /\ count isPromptToSave (calls (loopBody devmode env w)) = 0%nat
  /\ count isShowDialog (calls (loopBody devmode env w)) = 0%nat.
Proof.
  intros Hb.
  destruct (loopBody_value_world devmode env w) as (Hv & Hw).
  destruct (loopBody_counts devmode env w) as (_ & _ & C3 & C4).
  destruct (atExitCheck_fields devmode env w) as (_ & _ & _ & Fg & _).
  rewrite Hv in Hb. rewrite Hw, C3, C4. unfold closeFirstObserved.
  destruct (exitCheck_cases env (atExitCheck devmode env w))
    as [[_ E]|[(H1 & H2 & E)|(_ & _ & E)]]; rewrite E in Hb |- *;
    cbn [value world fst snd] in Hb |- *; try discriminate Hb.
  rewrite H1, H2, Fg. cbn [andb negb].
  destruct (activeModalDialogs (atExitCheck devmode env w)); [|discriminate Hb].
  repeat split.
Qed.

Lemma X4_break_iteration_is_quiet_witness :
  let w := world (loopBody false (frameEnv true [] [] false)
                    (startWorld DisconnectedATCServer)) in
  let env := frameEnv false [AircraftAdded "AAL123"] [] true in
  value (loopBody false env w) = true
  /\ globalConfig (world (loopBody false env w)) = globalConfig w
  /\ count isPromptToSave (calls (loopBody false env w)) = 0%nat.
Proof.
  cbv zeta. split; [reflexivity|].
  destruct (X4_break_iteration_is_quiet false
              (frameEnv false [AircraftAdded "AAL123"] [] true)
              (world (loopBody false (frameEnv true [] [] false)
                        (startWorld DisconnectedATCServer))) eq_refl)
    as (_ & _ & _ & H1 & H2 & _).
  split; [exact H1|exact H2].
Defined.

Lemma loopBody_stop_and_wantExit (devmode : bool) (env : FrameEnv) (w : World) :
  (wantExit w = true -> shouldStop w = true) ->
  wantExit (world (loopBody devmode env w)) = true ->
  shouldStop (world (loopBody devmode env w)) = true.
Proof.
  intros Inv.
  destruct (loopBody_value_world devmode env w) as (_ & Hw). rewrite Hw.
  destruct (atExitCheck_fields devmode env w) as (F1 & F2 & _).
  destruct (exitCheck_cases env (atExitCheck devmode env w))
    as [[H1 E]|[(H1 & H2 & E)|(H1 & H2 & E)]]; rewrite E;
    cbn [world fst snd set_activeModalDialogs set_globalConfig set_wantExit
           wantExit shouldStop]; trivial.
  intros H. rewrite H in F1. symmetry in F1. apply andb_true_iff in F1 as [A B].
  rewrite B, (Inv A) in F2. cbn in F2. congruence.
Qed.

(** X5: [wantExit] is never set without the stop flag: if that holds
    when a run starts, it holds when the run stops, whatever the
    environment did in between (a close attempt that is cancelled clears
    both, one that is observed finds the flag set). *)
Theorem X5_wantExit_implies_stop_flag
        (devmode : bool) (envs : list FrameEnv) (w : World) :
  (wantExit w = true -> shouldStop w = true) ->
  wantExit (finalWorld (run devmode envs w)) = true ->
  shouldStop (finalWorld (run devmode envs w)) = true.
Proof.
  revert w. induction envs as [|env envs IH]; intros w Inv; [exact Inv|].
  rewrite finalWorld_run_cons.
  pose proof (loopBody_stop_and_wantExit devmode env w Inv) as H.
  destruct (value (loopBody devmode env w)); [exact H|].
  apply IH, H.
Qed.

Lemma X5_wantExit_implies_stop_flag_witness :
  let envs := [frameEnv true [] [] true; frameEnv false [] [] false] in
  let w := startWorld (ConnectedATCServer 1) in
  wantExit (finalWorld (run false envs w)) = true
  /\ shouldStop (finalWorld (run false envs w)) = true.
Proof.
  cbv zeta. split; [reflexivity|].
  apply X5_wantExit_implies_stop_flag; [discriminate|reflexivity].
Defined.

(** X6: the loop writes the global configuration only in the iteration
    that first observes a close request; every other iteration leaves
    it as it is. *)
Theorem X6_config_written_only_on_first_observation
        (devmode : bool) (env : FrameEnv) (w : World) :
  globalConfig (world (loopBody devmode env w))
  = if closeFirstObserved devmode env w then grabbedConfig env else globalConfig w.
Proof.
  destruct (loopBody_value_world devmode env w) as (_ & Hw). rewrite Hw.
  destruct (atExitCheck_fields devmode env w) as (_ & _ & _ & Fg & _).
  unfold closeFirstObserved.
  destruct (exitCheck_cases env (atExitCheck devmode env w))
    as [[H1 E]|[(H1 & H2 & E)|(H1 & H2 & E)]]; rewrite E, H1, ?H2;
    cbn [world fst snd andb negb]; try exact Fg.
  reflexivity.
Qed.


Lemma batches_app (a b : list Call) :
  positionBatches (a ++ b) = positionBatches a ++ positionBatches b
  /\ paneBatches (a ++ b) = paneBatches a ++ paneBatches b
  /\ audioBatches (a ++ b) = audioBatches a ++ audioBatches b.
Proof.
  unfold positionBatches, paneBatches, audioBatches. rewrite !flat_map_app.
  repeat split.
Qed.

Lemma batches_none (tr : list Call) :
  Forall (fun c => isPropagationCall c = false) tr ->
  positionBatches tr = [] /\ paneBatches tr = [] /\ audioBatches tr = [].
Proof.
  intros H. induction H as [|c tr Hc _ (I1 & I2 & I3)]; [repeat split|].
  unfold positionBatches, paneBatches, audioBatches in *. cbn [flat_map].
  rewrite I1, I2, I3. destruct c; try discriminate Hc; repeat split.
Qed.

Lemma exitCheck_not_propagation (env : FrameEnv) (w : World) :
  Forall (fun c => isPropagationCall c = false) (calls (exitCheck env w)).
Proof.
  destruct (exitCheck_cases env w) as [[_ E]|[(_ & _ & E)|(_ & _ & E)]];
    rewrite E; cbn [calls snd]; try (repeat constructor).
  destruct (isConnected (server w)); repeat constructor.
Qed.

(** What one iteration hands to each consumer is the batch the
    propagation phase finds. *)
Lemma loopBody_batches (devmode : bool) (env : FrameEnv) (w : World) :
  positionBatches (calls (loopBody devmode env w)) = batchAtPropagation env w
  /\ paneBatches (calls (loopBody devmode env w)) = batchAtPropagation env w
  /\ audioBatches (calls (loopBody devmode env w)) = batchAtPropagation env w.
Proof.
  rewrite loopBody_explicit; cbn [calls snd].
  assert (Hc : Forall (fun c => isPropagationCall c = false)
                 (calls (forEach resolve (uiActions env) (beforeButtons env w)))).
  { eapply Forall_impl; [|apply resolved_calls].
    intros [] H; try discriminate H; reflexivity. }
  assert (Ht : Forall (fun c => isPropagationCall c = false)
                 (if logsStats devmode w then [LogStats] else []))
    by (destruct (logsStats devmode w); repeat constructor).
  pose proof (exitCheck_not_propagation env (atExitCheck devmode env w)) as Hx.
  destruct (batches_none _ Hc) as (A1 & A2 & A3).
  destruct (batches_none _ Ht) as (B1 & B2 & B3).
  destruct (batches_none _ Hx) as (D1 & D2 & D3).
  repeat split.
  all: repeat (first [rewrite (proj1 (batches_app _ _))
                     | rewrite (proj1 (proj2 (batches_app _ _)))
                     | rewrite (proj2 (proj2 (batches_app _ _)))]).
  all: rewrite ?A1, ?A2, ?A3, ?B1, ?B2, ?B3, ?D1, ?D2, ?D3.
  all: destruct (batchAtPropagation env w) as [|u b]; cbn;
    rewrite ?app_nil_r; reflexivity.
Qed.

(** X8: over any run the three consumers are handed the same records in
    the same order: what [positionConfig.Update] has received is what
    [wmShareUpdates] has received and what [audioProcessUpdates] has
    received. *)
Theorem X8_consumers_receive_the_same
        (devmode : bool) (envs : list FrameEnv) (w : World) :
  paneBatches (allCalls (run devmode envs w))
  = positionBatches (allCalls (run devmode envs w))
  /\ audioBatches (allCalls (run devmode envs w))
     = positionBatches (allCalls (run devmode envs w)).
Proof.
  revert w. induction envs as [|env envs IH]; intros w; [split; reflexivity|].
  rewrite allCalls_run_cons.
  destruct (batches_app (calls (loopBody devmode env w))
              (if value (loopBody devmode env w) then []
               else allCalls (run devmode envs (world (loopBody devmode env w)))))
    as (E1 & E2 & E3).
  destruct (loopBody_batches devmode env w) as (L1 & L2 & L3).
  rewrite E1, E2, E3, L1, L2, L3.
  destruct (value (loopBody devmode env w)); [split; reflexivity|].
  destruct (IH (world (loopBody devmode env w))) as (I1 & I2).
  rewrite I1, I2. split; reflexivity.
Qed.

(** X9: no record is lost and none is delivered twice: over any run,
    what the batch held at the start followed by everything recorded
    during the run is exactly what the consumers were handed, in that
    order, followed by what the batch still holds at the end. *)
Theorem X9_records_delivered_exactly_once
        (devmode : bool) (envs : list FrameEnv) (w : World) :
  controlUpdates w ++ recorded devmode envs w
  = positionBatches (allCalls (run devmode envs w))
      ++ controlUpdates (finalWorld (run devmode envs w)).
Proof.
  revert w. induction envs as [|env envs IH]; intros w.
  - cbn. rewrite app_nil_r. reflexivity.
  - rewrite allCalls_run_cons, finalWorld_run_cons.
    rewrite (proj1 (batches_app _ _)), (proj1 (loopBody_batches devmode env w)).
    cbn [recorded].
    destruct (loopBody_value_world devmode env w) as (_ & Hw).
    destruct (atExitCheck_fields devmode env w) as (_ & _ & _ & _ & Fc & _).
    destruct (exitCheck_keeps env (atExitCheck devmode env w)) as (_ & _ & Kc & _).
    assert (Hc : controlUpdates (world (loopBody devmode env w))
                 = paneChanges env ++ uiChanges env)
      by (rewrite Hw, Kc; exact Fc).
    rewrite batchAtPropagation_eq.
    destruct (value (loopBody devmode env w)).
    + cbn [positionBatches flat_map]. rewrite Hc, !app_nil_r.
      destruct (isConnected (server w)); rewrite <- ?app_assoc; reflexivity.
    + rewrite <- app_assoc, <- IH, Hc.
      destruct (isConnected (server w)); rewrite <- ?app_assoc; reflexivity.
Qed.

(** ** [main] as a whole *)

(** [main], path by path. *)
Lemma main_eq (flags : Flags) (env : StartupEnv) (frames : list FrameEnv) :
  main flags env frames =
  let stop := if profiling flags env then [StopCPUProfile] else [] in
  let t1 := [FlagParse; NewLogger true (devmode flags) 50000]
              ++ callsOf (profileCPU flags env)
              ++ callsOf (initialize env)
              ++ callsOf (createWindow env) in
  match platformError env with
  | Some e =>
      (Undetermined,
       t1 ++ stop
          ++ [DebugStack; LgErrorf "Panic stack: %s" [];
              ShowFatalErrorDialog ("Unable to create application window: " ++ e)%string;
              SaveLogs; RendererDispose Unassigned])
  | None =>
      let t2 := t1 ++ callsOf (loadData env) ++ callsOf (createRenderer env) in
      match rendererError env with
      | Some e =>
          (Undetermined,
           t2 ++ stop
              ++ [DebugStack; LgErrorf "Panic stack: %s" [];
                  ShowFatalErrorDialog ("Unable to initialize OpenGL: " ++ e)%string;
                  SaveLogs; RendererDispose FailedResult])
      | None =>
          let r := run (devmode flags) frames (initialWorld env) in
          let t3 := t2 ++ [LgPrintf "Starting main loop"] ++ map InLoop (allCalls r) in
          if exited r
          then (Returned,
                t3 ++ callsOf (profileMemory flags env)
                   ++ callsOf (printErrorLog flags)
                   ++ stop
                   ++ [SaveLogs; RendererDispose Created; PlatformDispose Created;
                       ContextDestroy])
          else (Looping, t3)
      end
  end.
Proof.
  unfold main, mainBody, eventLoop, callsOf. cbv zeta.
  generalize (run (devmode flags) frames (initialWorld env)) as r. intros r.
  generalize (map InLoop (allCalls r)) as loopCalls.
  generalize (exited r) as ex. clear r frames. intros ex loopCalls.
  destruct flags as [lt cp mp dm].
  destruct env as [cce cse ae lc os pe se pse re sd mce mwe].
  unfold profiling, profileCPU, initialize, createWindow, loadData, createRenderer,
    profileMemory, printErrorLog; cbn [cpuprofile memprofile devmode cpuCreateError
    cpuStartError audioError loadedConfig goos platformError sectorFileError
    positionFileError rendererError memCreateError memWriteError].
  destruct cp as [|c0 cp]; [|destruct cce; [|destruct cse]];
    (destruct ae; destruct pe; [reflexivity| |reflexivity|]);
    (destruct se; destruct pse; destruct re; try reflexivity);
    (destruct ex; [|cbn; rewrite <- ?app_assoc; reflexivity]);
    (destruct mp as [|m0 mp]; [|destruct mce; destruct mwe]);
    destruct dm; cbn; rewrite <- ?app_assoc; reflexivity.
Qed.

Lemma countMain_app (q : MainCall -> bool) (a b : list MainCall) :
  countMain q (a ++ b) = (countMain q a + countMain q b)%nat.
Proof. unfold countMain. rewrite filter_app, length_app. reflexivity. Qed.

Lemma countMain_zero (q r : MainCall -> bool) (tr : list MainCall) :
  (forall c, r c = true -> q c = false) ->
  Forall (fun c => r c = true) tr -> countMain q tr = 0%nat.
Proof.
  intros Hq H. induction H as [|c tr Hc _ IH]; [reflexivity|].
  unfold countMain in *. cbn [filter]. rewrite (Hq c Hc). exact IH.
Qed.

Lemma countMain_loop (q : MainCall -> bool) (l : list Call) :
  countMain q (map InLoop l) = count (fun c => q (InLoop c)) l.
Proof.
  unfold countMain, count. induction l as [|c l IH]; [reflexivity|].
  cbn [map filter]. destruct (q (InLoop c)); cbn [List.length]; rewrite IH; reflexivity.
Qed.

Lemma count_false (l : list Call) : count (fun _ => false) l = 0%nat.
Proof. unfold count. induction l; [reflexivity|assumption]. Qed.

Lemma profileCPU_calls (flags : Flags) (env : StartupEnv) :
  Forall (fun c => isStartupCall c = true) (callsOf (profileCPU flags env)).
Proof.
  destruct flags as [lt [|c0 cp] mp dm]; [constructor|].
  destruct env as [[e|] [e'|] ae lc os pe se pse re sd mce mwe];
    repeat constructor.
Qed.

Lemma initialize_calls (env : StartupEnv) :
  Forall (fun c => isStartupCall c = true) (callsOf (initialize env)).
Proof.
  destruct env as [cce cse [e|] lc os pe se pse re sd mce mwe]; repeat constructor.
Qed.

Lemma createWindow_calls (env : StartupEnv) :
  Forall (fun c => isStartupCall c = true) (callsOf (createWindow env)).
Proof.
  destruct env as [cce cse ae lc os [e|] se pse re sd mce mwe]; repeat constructor.
Qed.

Lemma loadData_calls (env : StartupEnv) :
  Forall (fun c => isStartupCall c = true) (callsOf (loadData env)).
Proof.
  destruct env as [cce cse ae lc os pe [e|] [e'|] re sd mce mwe]; repeat constructor.
Qed.

Lemma createRenderer_calls (env : StartupEnv) :
  Forall (fun c => isStartupCall c = true) (callsOf (createRenderer env)).
Proof.
  destruct env as [cce cse ae lc os pe se pse [e|] sd mce mwe]; repeat constructor.
Qed.

Lemma profileMemory_calls (flags : Flags) (env : StartupEnv) :
  Forall (fun c => isWayOutCall c = true) (callsOf (profileMemory flags env)).
Proof.
  destruct flags as [lt cp [|m0 mp] dm]; [constructor|].
  destruct env as [cce cse ae lc os pe se pse re sd [e|] [e'|]]; repeat constructor.
Qed.

Lemma printErrorLog_calls (flags : Flags) :
  Forall (fun c => isWayOutCall c = true) (callsOf (printErrorLog flags)).
Proof. destruct flags as [lt cp mp [|]]; repeat constructor. Qed.

(** Counting, in the calls of [main], calls that neither start-up nor
    the way out makes. *)
Lemma main_count (q : MainCall -> bool) (flags : Flags) (env : StartupEnv)
      (frames : list FrameEnv) :
  (forall c, isStartupCall c = true -> q c = false) ->
  (forall c, isWayOutCall c = true -> q c = false) ->
  countMain q (snd (main flags env frames))
  = match fst (main flags env frames) with
    | Looping =>
        countMain q [LgPrintf "Starting main loop"]
        + count (fun c => q (InLoop c))
            (allCalls (run (devmode flags) frames (initialWorld env)))
    | Returned =>
        countMain q [LgPrintf "Starting main loop"]
        + count (fun c => q (InLoop c))
            (allCalls (run (devmode flags) frames (initialWorld env)))
        + countMain q (if profiling flags env then [StopCPUProfile] else [])
        + countMain q [SaveLogs; RendererDispose Created; PlatformDispose Created;
                       ContextDestroy]
    | _ =>
        countMain q (if profiling flags env then [StopCPUProfile] else [])
        + countMain q [DebugStack; LgErrorf "Panic stack: %s" [];
                       ShowFatalErrorDialog
                         (match fatalMessage env with Some m => m | None => "" end);
                       SaveLogs;
                       RendererDispose (match platformError env with
                                        | Some _ => Unassigned
                                        | None => FailedResult
                                        end)]
    end%nat.
Proof.
  intros Hs Hw. rewrite main_eq; cbv zeta.
  pose proof (countMain_zero q _ _ Hs (profileCPU_calls flags env)) as Z1.
  pose proof (countMain_zero q _ _ Hs (initialize_calls env)) as Z2.
  pose proof (countMain_zero q _ _ Hs (createWindow_calls env)) as Z3.
  pose proof (countMain_zero q _ _ Hs (loadData_calls env)) as Z4.
  pose proof (countMain_zero q _ _ Hs (createRenderer_calls env)) as Z5.
  pose proof (countMain_zero q _ _ Hw (profileMemory_calls flags env)) as Z6.
  pose proof (countMain_zero q _ _ Hw (printErrorLog_calls flags)) as Z7.
  assert (Z0 : countMain q [FlagParse; NewLogger true (devmode flags) 50000] = 0%nat).
  { unfold countMain; cbn [filter]. rewrite !Hs by reflexivity. reflexivity. }
  unfold fatalMessage.
  destruct (platformError env) as [e|]; [|destruct (rendererError env) as [e|];
    [|destruct (exited (run (devmode flags) frames (initialWorld env)))]];
    cbn [fst snd]; rewrite !countMain_app, ?countMain_loop,
      ?Z0, ?Z1, ?Z2, ?Z3, ?Z4, ?Z5, ?Z6, ?Z7; lia.
Qed.

Lemma main_outcome (flags : Flags) (env : StartupEnv) (frames : list FrameEnv) :
  fst (main flags env frames)
  = if failed (platformError env) || failed (rendererError env) then Undetermined
    else if exited (run (devmode flags) frames (initialWorld env)) then Returned
         else Looping.
Proof.
  rewrite main_eq; cbv zeta.
  destruct (platformError env); [reflexivity|].
  destruct (rendererError env); [reflexivity|].
  destruct (exited _); reflexivity.
Qed.




(** X12: after a fatal start-up failure the deferred closure reports the
    panic in the dialog, with the message [main] panicked with, saves
    the logs, and then calls [Dispose] on a renderer that was never
    created: the clean-up is not guarded by what start-up got to.
    Nothing of the loop has run before. *)
Theorem X12_fatal_failure_cleans_up_unguarded
        (flags : Flags) (env : StartupEnv) (frames : list FrameEnv) (msg : string) :
  fatalMessage env = Some msg ->
  fst (main flags env frames) = Undetermined
  /\ exists pre s,
      snd (main flags env frames)
      = pre ++ [DebugStack; LgErrorf "Panic stack: %s" []; ShowFatalErrorDialog msg;
                SaveLogs; RendererDispose s]
      /\ s <> Created
      /\ countMain isInLoop pre = 0%nat
      /\ countMain isLoopStart pre = 0%nat.
Proof.
  intros Hm. rewrite main_eq; cbv zeta. unfold fatalMessage in Hm.
  assert (Z : forall q, (forall c, isStartupCall c = true -> q c = false) ->
                        q StopCPUProfile = false ->
                        forall pre,
                          pre = ([FlagParse; NewLogger true (devmode flags) 50000]
                                   ++ callsOf (profileCPU flags env)
                                   ++ callsOf (initialize env)
                                   ++ callsOf (createWindow env))
                                  ++ (if profiling flags env then [StopCPUProfile] else [])
                          \/ pre = (([FlagParse; NewLogger true (devmode flags) 50000]
                                      ++ callsOf (profileCPU flags env)
                                      ++ callsOf (initialize env)
                                      ++ callsOf (createWindow env))
                                     ++ callsOf (loadData env)
                                     ++ callsOf (createRenderer env))
                                    ++ (if profiling flags env then [StopCPUProfile] else []) ->
                          countMain q pre = 0%nat).
  { intros q Hs Hq pre Hpre.
    pose proof (countMain_zero q _ _ Hs (profileCPU_calls flags env)) as Z1.
    pose proof (countMain_zero q _ _ Hs (initialize_calls env)) as Z2.
    pose proof (countMain_zero q _ _ Hs (createWindow_calls env)) as Z3.
    pose proof (countMain_zero q _ _ Hs (loadData_calls env)) as Z4.
    pose proof (countMain_zero q _ _ Hs (createRenderer_calls env)) as Z5.
    assert (Z0 : countMain q [FlagParse; NewLogger true (devmode flags) 50000] = 0%nat).
    { unfold countMain; cbn [filter]. rewrite !Hs by reflexivity. reflexivity. }
    assert (Z6 : countMain q (if profiling flags env then [StopCPUProfile] else [])
                 = 0%nat).
    { destruct (profiling flags env); unfold countMain; cbn [filter];
        rewrite ?Hq; reflexivity. }
    destruct Hpre as [-> | ->]; rewrite !countMain_app, Z0, Z1, Z2, Z3, ?Z4, ?Z5, Z6;
      reflexivity. }
  assert (ZL : forall pre, _ -> countMain isInLoop pre = 0%nat)
    by (apply (Z isInLoop); [intros [] H; try discriminate H; reflexivity|reflexivity]).
  assert (ZS : forall pre, _ -> countMain isLoopStart pre = 0%nat)
    by (apply (Z isLoopStart); [intros [] H; try discriminate H; reflexivity|reflexivity]).
  destruct (platformError env) as [e|].
  - injection Hm as <-. split; [reflexivity|].
    eexists; exists Unassigned. cbn [snd]. split; [rewrite app_assoc; reflexivity|].
    split; [discriminate|]. split; [apply ZL|apply ZS]; left; reflexivity.
  - destruct (rendererError env) as [e|]; [|discriminate Hm].
    injection Hm as <-. split; [reflexivity|].
    eexists; exists FailedResult. cbn [snd]. split; [rewrite app_assoc; reflexivity|].
    split; [discriminate|]. split; [apply ZL|apply ZS]; right; reflexivity.
Qed.

Lemma X12_fatal_failure_cleans_up_unguarded_witness :
  let env := {| cpuCreateError := None; cpuStartError := None;
                audioError := None; loadedConfig := loadedConfig goodStart;
                goos := "linux"; platformError := Some "no display"%string;
                sectorFileError := None; positionFileError := None;
                rendererError := None; startupDialogs := [];
                memCreateError := None; memWriteError := None |} in
  fst (main noFlags env []) = Undetermined
  /\ exists pre s,
      snd (main noFlags env [])
      = pre ++ [DebugStack; LgErrorf "Panic stack: %s" [];
                ShowFatalErrorDialog "Unable to create application window: no display";
                SaveLogs; RendererDispose s]
      /\ s <> Created
      /\ countMain isInLoop pre = 0%nat
      /\ countMain isLoopStart pre = 0%nat.
Proof.
  cbv zeta. apply X12_fatal_failure_cleans_up_unguarded. reflexivity.
Defined.

(** X13: when [main] returns, the clean-up comes last and runs in the
    reverse order of creation: the imgui context, the window and the
    renderer are created in that order, and the calls of [main] end with
    [StopCPUProfile] if a profile was started, [SaveLogs], and then
    [Dispose] of the renderer, [Dispose] of the window and [Destroy] of
    the context, each on the created object. *)
Theorem X13_clean_up_in_reverse_order
        (flags : Flags) (env : StartupEnv) (frames : list FrameEnv) :
  fst (main flags env frames) = Returned ->
  exists a b c d multisample,
    snd (main flags env frames)
    = a ++ ImguiInit
        :: b ++ NewGLFWPlatform (InitialWindowSize (loadedConfig env))
                  (InitialWindowPosition (loadedConfig env)) multisample
        :: c ++ NewOpenGL2Renderer
        :: d ++ (if profiling flags env then [StopCPUProfile] else [])
        ++ [SaveLogs; RendererDispose Created; PlatformDispose Created; ContextDestroy].
Proof.
  intros H. rewrite main_outcome in H. revert H. rewrite main_eq; cbv zeta.
  assert (I : exists i, callsOf (initialize env) = ImguiInit :: i)
    by (destruct env as [cce cse [e|] lc os pe se pse re sd mce mwe];
        eexists; reflexivity).
  destruct I as (i & Ei).
  destruct (platformError env) as [e|] eqn:Ep; [discriminate|].
  destruct (rendererError env) as [e|] eqn:Er; [discriminate|].
  destruct (exited _); [intros _|discriminate].
  assert (W : callsOf (createWindow env)
              = [NewGLFWPlatform (InitialWindowSize (loadedConfig env))
                   (InitialWindowPosition (loadedConfig env))
                   (negb (String.eqb (goos env) "darwin"));
                 GetClipboard; SetClipboard]).
  { unfold callsOf, createWindow. rewrite Ep. reflexivity. }
  assert (R : callsOf (createRenderer env)
              = [NewOpenGL2Renderer; UiInit; NewControlUpdates]).
  { unfold callsOf, createRenderer. rewrite Er. reflexivity. }
  rewrite Ei, W, R; cbn [snd].
  exists ([FlagParse; NewLogger true (devmode flags) 50000]
            ++ callsOf (profileCPU flags env)),
    i, ([GetClipboard; SetClipboard] ++ callsOf (loadData env)).
  exists ([UiInit; NewControlUpdates; LgPrintf "Starting main loop"]
            ++ map InLoop (allCalls (run (devmode flags) frames (initialWorld env)))
            ++ callsOf (profileMemory flags env)
            ++ callsOf (printErrorLog flags)).
  exists (negb (String.eqb (goos env) "darwin")).
  repeat (rewrite <- app_assoc; cbn [app]). reflexivity.
Qed.

Lemma X13_clean_up_in_reverse_order_witness :
  exists a b c d multisample,
    snd (main noFlags goodStart [frameEnv true [] [] false; frameEnv false [] [] false])
    = a ++ ImguiInit
        :: b ++ NewGLFWPlatform (1280, 720) (0, 0) multisample
        :: c ++ NewOpenGL2Renderer
        :: d ++ [SaveLogs; RendererDispose Created; PlatformDispose Created;
                 ContextDestroy].
Proof.
  apply (X13_clean_up_in_reverse_order noFlags goodStart
           [frameEnv true [] [] false; frameEnv false [] [] false]).
  reflexivity.
Defined.

(** The calls of [main], counted piece by piece. *)
Lemma main_count_pieces (q : MainCall -> bool) (flags : Flags) (env : StartupEnv)
      (frames : list FrameEnv) :
  countMain q (snd (main flags env frames))
  = (countMain q [FlagParse; NewLogger true (devmode flags) 50000]
     + countMain q (callsOf (profileCPU flags env))
     + countMain q (callsOf (initialize env))
     + countMain q (callsOf (createWindow env))
     + match platformError env with
       | Some e =>
           countMain q (if profiling flags env then [StopCPUProfile] else [])
           + countMain q [DebugStack; LgErrorf "Panic stack: %s" [];
                          ShowFatalErrorDialog
                            ("Unable to create application window: " ++ e)%string;
                          SaveLogs; RendererDispose Unassigned]
       | None =>
           countMain q (callsOf (loadData env))
           + countMain q (callsOf (createRenderer env))
           + match rendererError env with
             | Some e =>
                 countMain q (if profiling flags env then [StopCPUProfile] else [])
                 + countMain q [DebugStack; LgErrorf "Panic stack: %s" [];
                                ShowFatalErrorDialog
                                  ("Unable to initialize OpenGL: " ++ e)%string;
                                SaveLogs; RendererDispose FailedResult]
             | None =>
                 countMain q [LgPrintf "Starting main loop"]
                 + count (fun c => q (InLoop c))
                     (allCalls (run (devmode flags) frames (initialWorld env)))
                 + if exited (run (devmode flags) frames (initialWorld env))
                   then countMain q (callsOf (profileMemory flags env))
                        + countMain q (callsOf (printErrorLog flags))
                        + countMain q (if profiling flags env
                                       then [StopCPUProfile] else [])
                        + countMain q [SaveLogs; RendererDispose Created;
                                       PlatformDispose Created; ContextDestroy]
                   else 0
             end
       end)%nat.
Proof.
  rewrite main_eq; cbv zeta.
  destruct (platformError env) as [e|]; [|destruct (rendererError env) as [e|];
    [|destruct (exited (run (devmode flags) frames (initialWorld env)))]];
    cbn [snd]; rewrite !countMain_app, ?countMain_loop; lia.
Qed.

Lemma StartCPUProfile_pieces : forall (flags : Flags) (env : StartupEnv),
  countMain isStartCPUProfile (callsOf (profileCPU flags env))
  = (if nonEmpty (cpuprofile flags) && negb (failed (cpuCreateError env))
     then 1%nat else 0%nat)
  /\ countMain isStartCPUProfile (callsOf (initialize env)) = 0%nat
  /\ countMain isStartCPUProfile (callsOf (createWindow env)) = 0%nat
  /\ countMain isStartCPUProfile (callsOf (loadData env)) = 0%nat
  /\ countMain isStartCPUProfile (callsOf (createRenderer env)) = 0%nat
  /\ countMain isStartCPUProfile (callsOf (profileMemory flags env)) = 0%nat
  /\ countMain isStartCPUProfile (callsOf (printErrorLog flags)) = 0%nat.
Proof. count_in_piece. Qed.

Lemma UiAddError_pieces : forall (flags : Flags) (env : StartupEnv),
  countMain isUiAddError (callsOf (profileCPU flags env)) = 0%nat
  /\ countMain isUiAddError (callsOf (initialize env)) = 0%nat
  /\ countMain isUiAddError (callsOf (createWindow env)) = 0%nat
  /\ countMain isUiAddError (callsOf (loadData env))
     = ((if failed (sectorFileError env) then 1 else 0)
        + (if failed (positionFileError env) then 1 else 0))%nat
  /\ countMain isUiAddError (callsOf (createRenderer env)) = 0%nat
  /\ countMain isUiAddError (callsOf (profileMemory flags env)) = 0%nat
  /\ countMain isUiAddError (callsOf (printErrorLog flags)) = 0%nat.
Proof. count_in_piece. Qed.

Lemma wayOut_pieces : forall (flags : Flags) (env : StartupEnv),
  countMain isWriteHeapProfile (callsOf (profileMemory flags env))
  = (if nonEmpty (memprofile flags) then 1%nat else 0%nat)
  /\ countMain isFileClose (callsOf (profileMemory flags env))
     = (if nonEmpty (memprofile flags) then 1%nat else 0%nat)
  /\ countMain isPrintErrorLog (callsOf (profileMemory flags env)) = 0%nat
  /\ countMain isWriteHeapProfile (callsOf (printErrorLog flags)) = 0%nat
  /\ countMain isFileClose (callsOf (printErrorLog flags)) = 0%nat
  /\ countMain isPrintErrorLog (callsOf (printErrorLog flags))
     = (if devmode flags then 1%nat else 0%nat).
Proof. count_in_piece. Qed.

(** X14: CPU profiling.  [StartCPUProfile] is called only when a profile
    file was asked for and could be created; a profile that was started
    is stopped exactly once on every way out of [main], after a fatal
    start-up failure as well, and a profile that was not started is
    never stopped. *)
Theorem X14_started_profile_is_stopped
        (flags : Flags) (env : StartupEnv) (frames : list FrameEnv) :
  countMain isStartCPUProfile (snd (main flags env frames))
  = (if nonEmpty (cpuprofile flags) && negb (failed (cpuCreateError env))
     then 1%nat else 0%nat)
  /\ countMain isStopCPUProfile (snd (main flags env frames))
     = (if profiling flags env && negb (isLooping (fst (main flags env frames)))
        then 1%nat else 0%nat).
Proof.
  split.
  - rewrite main_count_pieces.
    destruct (StartCPUProfile_pieces flags env) as (P1 & P2 & P3 & P4 & P5 & P6 & P7).
    rewrite P1, P2, P3, P4, P5, P6, P7.
    destruct (platformError env); [|destruct (rendererError env);
      [|destruct (exited _)]]; rewrite ?count_false;
      destruct (profiling flags env); cbn; lia.
  - rewrite main_count by (intros [] H; try discriminate H; reflexivity).
    rewrite main_outcome.
    destruct (failed (platformError env) || failed (rendererError env));
      [|destruct (exited _)]; cbn [isLooping negb]; rewrite ?count_false;
      destruct (profiling flags env); reflexivity.
Qed.

(** X15: what [main] does between the loop and its return happens only
    when the loop has ended.  The heap profile is then written and the
    file closed exactly once whenever a memory profile was asked for,
    also when the file could not be created (there is no early return
    after that error: the write and the close get the file that was not
    created); the error log is printed exactly when in developer mode. *)
Theorem X15_work_after_the_loop
        (flags : Flags) (env : StartupEnv) (frames : list FrameEnv) :
  countMain isWriteHeapProfile (snd (main flags env frames))
  = (if isReturned (fst (main flags env frames)) && nonEmpty (memprofile flags)
     then 1%nat else 0%nat)
  /\ countMain isFileClose (snd (main flags env frames))
     = (if isReturned (fst (main flags env frames)) && nonEmpty (memprofile flags)
        then 1%nat else 0%nat)
  /\ countMain isPrintErrorLog (snd (main flags env frames))
     = (if isReturned (fst (main flags env frames)) && devmode flags
        then 1%nat else 0%nat)
  /\ (isReturned (fst (main flags env frames)) && nonEmpty (memprofile flags) = true ->
      In (WriteHeapProfile (negb (failed (memCreateError env))))
         (snd (main flags env frames))
      /\ In (FileClose (negb (failed (memCreateError env))))
            (snd (main flags env frames))).
Proof.
  destruct (wayOut_pieces flags env) as (W1 & W2 & W3 & W4 & W5 & W6).
  assert (S : forall q, (forall c, isStartupCall c = true -> q c = false) ->
                        (forall c, q (InLoop c) = false) ->
                        q (LgPrintf "Starting main loop") = false ->
                        q StopCPUProfile = false ->
                        (forall e s,
                            countMain q [DebugStack; LgErrorf "Panic stack: %s" [];
                                         ShowFatalErrorDialog e; SaveLogs;
                                         RendererDispose s] = 0%nat) ->
                        countMain q [SaveLogs; RendererDispose Created;
                                     PlatformDispose Created; ContextDestroy] = 0%nat ->
                        countMain q (snd (main flags env frames))
                        = if isReturned (fst (main flags env frames))
                          then (countMain q (callsOf (profileMemory flags env))
                                + countMain q (callsOf (printErrorLog flags)))%nat
                          else 0%nat).
  { intros q Hs Hl Hp Hc Hf Ht. rewrite main_count_pieces, main_outcome.
    rewrite (countMain_zero q _ _ Hs (profileCPU_calls flags env)),
      (countMain_zero q _ _ Hs (initialize_calls env)),
      (countMain_zero q _ _ Hs (createWindow_calls env)),
      (countMain_zero q _ _ Hs (loadData_calls env)),
      (countMain_zero q _ _ Hs (createRenderer_calls env)).
    assert (Z0 : countMain q [FlagParse; NewLogger true (devmode flags) 50000] = 0%nat)
      by (unfold countMain; cbn [filter]; rewrite !Hs by reflexivity; reflexivity).
    assert (Z1 : countMain q (if profiling flags env then [StopCPUProfile] else [])
                 = 0%nat)
      by (destruct (profiling flags env); unfold countMain; cbn [filter];
          rewrite ?Hc; reflexivity).
    assert (Z2 : countMain q [LgPrintf "Starting main loop"] = 0%nat)
      by (unfold countMain; cbn [filter]; rewrite Hp; reflexivity).
    assert (Z3 : count (fun c => q (InLoop c))
                   (allCalls (run (devmode flags) frames (initialWorld env))) = 0%nat).
    { unfold count. induction (allCalls _) as [|c l IH]; [reflexivity|].
      cbn [filter]. rewrite Hl. exact IH. }
    rewrite Z0, Z1, Z2, Z3.
    destruct (platformError env) as [e|]; cbn [failed orb isReturned].
    - rewrite Hf. reflexivity.
    - destruct (rendererError env) as [e|]; cbn [failed isReturned].
      + rewrite Hf. reflexivity.
      + destruct (exited _); cbn [isReturned]; [|reflexivity].
        rewrite Ht. lia. }
  repeat split.
  - rewrite S, W1, W4; try reflexivity;
      [destruct (isReturned _), (nonEmpty _); reflexivity
      |intros [] H; try discriminate H; reflexivity].
  - rewrite S, W2, W5; try reflexivity;
      [destruct (isReturned _), (nonEmpty _); reflexivity
      |intros [] H; try discriminate H; reflexivity].
  - rewrite S, W3, W6; try reflexivity;
      [destruct (isReturned _), (devmode flags); reflexivity
      |intros [] H; try discriminate H; reflexivity].
  - apply andb_true_iff in H as [Hr Hn]. rewrite main_outcome in Hr. revert Hr.
    rewrite main_eq; cbv zeta.
    destruct (platformError env); [discriminate|].
    destruct (rendererError env); [discriminate|].
    destruct (exited _); [intros _|discriminate]. cbn [snd].
    apply in_or_app; right. apply in_or_app; left.
    destruct flags as [lt cp [|m0 mp] dm]; [discriminate Hn|].
    destruct env as [cce cse ae lc os pe se pse re sd [e|] [e'|]]; cbn;
      intuition congruence.
  - apply andb_true_iff in H as [Hr Hn]. rewrite main_outcome in Hr. revert Hr.
    rewrite main_eq; cbv zeta.
    destruct (platformError env); [discriminate|].
    destruct (rendererError env); [discriminate|].
    destruct (exited _); [intros _|discriminate]. cbn [snd].
    apply in_or_app; right. apply in_or_app; left.
    destruct flags as [lt cp [|m0 mp] dm]; [discriminate Hn|].
    destruct env as [cce cse ae lc os pe se pse re sd [e|] [e'|]]; cbn;
      intuition congruence.
Qed.

Lemma X15_work_after_the_loop_witness :
  let flags := {| logTraffic := false; cpuprofile := ""; memprofile := "heap.prof";
                  devmode := true |} in
  let env := {| cpuCreateError := None; cpuStartError := None;
                audioError := None; loadedConfig := loadedConfig goodStart;
                goos := "linux"; platformError := None;
                sectorFileError := None; positionFileError := None;
                rendererError := None; startupDialogs := [];
                memCreateError := Some "read-only file system"%string;
                memWriteError := Some "invalid argument"%string |} in
  let frames := [frameEnv true [] [] false; frameEnv false [] [] false] in
  In (WriteHeapProfile false) (snd (main flags env frames))
  /\ In (FileClose false) (snd (main flags env frames)).
Proof.
  cbv zeta.
  destruct (X15_work_after_the_loop
              {| logTraffic := false; cpuprofile := ""; memprofile := "heap.prof";
                 devmode := true |}
              {| cpuCreateError := None; cpuStartError := None;
                 audioError := None; loadedConfig := loadedConfig goodStart;
                 goos := "linux"; platformError := None;
                 sectorFileError := None; positionFileError := None;
                 rendererError := None; startupDialogs := [];
                 memCreateError := Some "read-only file system"%string;
                 memWriteError := Some "invalid argument"%string |}
              [frameEnv true [] [] false; frameEnv false [] [] false])
    as (_ & _ & _ & H).
  apply H. reflexivity.
Defined.





(** X17: a sector file or a position file that cannot be loaded is
    reported to the UI once each and start-up goes on; when the window
    could not be created [main] never gets to the files and reports
    nothing. *)
Theorem X17_unloadable_files_are_reported
        (flags : Flags) (env : StartupEnv) (frames : list FrameEnv) :
  countMain isUiAddError (snd (main flags env frames))
  = if failed (platformError env) then 0%nat
    else ((if failed (sectorFileError env) then 1 else 0)
          + (if failed (positionFileError env) then 1 else 0))%nat.
Proof.
  rewrite main_count_pieces.
  destruct (UiAddError_pieces flags env) as (P1 & P2 & P3 & P4 & P5 & P6 & P7).
  rewrite P1, P2, P3, P4, P5, P6, P7.
  destruct (platformError env); [|destruct (rendererError env);
    [|destruct (exited _)]]; rewrite ?count_false; cbn [failed];
    destruct (profiling flags env); cbn; lia.
Qed.
